(** * RTSFheGameFHE: a shallow embedding of contracts/RTS_Fhe_Game.sol

    The contract stores, per batch and per player, two encrypted 32-bit
    handles, and runs a request/callback decryption protocol against the
    FHE library.  Storage variables keep the Solidity names.  Every external
    function is a computation in a small state-and-revert monad whose world
    holds the storage and the ordered trace of storage writes, emitted
    events and library calls of the running transaction. *)

From Stdlib Require Import ZArith Bool List Lia.
From Stdlib Require Import Init.Byte.
From Stdlib Require String Ascii DecimalString.
Import String.StringSyntax.
Delimit Scope string_scope with string.
From stdpp Require Import base option gmap.
Import ListNotations.

Local Open Scope Z_scope.

(** ** Machine data *)

Definition uint256_max : Z := 2 ^ 256 - 1.
Definition uint32_max : Z := 2 ^ 32 - 1.

(** [address], [uint256], [uint32], [bytes32] and the [euint32] handle
    (a user-defined value type over [bytes32]) are all carried by [Z]. *)
Definition address := Z.
Definition bytes := list byte.

(** Big-endian reading of a byte string, as the ABI does for a word. *)
Definition be_to_Z (bs : bytes) : Z :=
  fold_left (fun acc b => acc * 256 + Z.of_N (Byte.to_N b)) bs 0.

(** [bs[a:b]]: reverts (here: [None]) when the range leaves the string. *)
Definition bytes_slice (bs : bytes) (a b : nat) : option bytes :=
  if ((a <=? b)%nat && (b <=? length bs)%nat)%bool
  then Some (firstn (b - a) (skipn a bs))
  else None.

(** [abi.decode(bs, (uint32))]: needs one full word whose value fits 32 bits. *)
Definition abi_decode_uint32 (bs : bytes) : option Z :=
  if (length bs <? 32)%nat then None
  else let v := be_to_Z (firstn 32 bs) in
       if v <=? uint32_max then Some v else None.

(** [abi.encode(bytes32[] a, address x)] as its sequence of 32-byte words:
    the offset of the dynamic array, the address, then length and items. *)
Definition abi_encode_bytes32s_address (a : list Z) (x : address) : list Z :=
  64 :: x :: Z.of_nat (length a) :: a.

(** ** What the contract takes from outside

    The contract's own address, the hash function and the FHE library's
    [isInitialized] test on a handle are not part of the contract source. *)
Class Platform := {
  this : address;
  keccak256 : list Z -> Z;
  isInitialized : Z -> bool
}.

(** The transaction environment.  The two [oracle_] fields are the answers
    of the FHE library to the calls made during the transaction: the request
    id handed out by [FHE.requestDecryption] ([None] when the library
    reverts) and whether [FHE.checkSignatures] accepts the proof. *)
Record Env := mkEnv {
  msg_sender : address;
  block_timestamp : Z;
  oracle_requestId : option Z;
  oracle_signaturesValid : bool
}.

(** ** Errors, events, storage *)

Inductive Error :=
| NotOwner
| NotProvider
| Paused
| CooldownActive
| InvalidArgument
| BatchNotOpen
| ReplayAttempt
| StateMismatch
| InvalidProof
| AlreadyInitialized
| Panic (code : Z)      (* compiler-inserted check, 0x11 = overflow *)
| LibraryRevert         (* a revert raised inside the FHE library *)
| DecodeRevert.         (* slice or abi.decode validation failure *)

Inductive Event :=
| ProviderAdded (provider : address)
| ProviderRemoved (provider : address)
| CooldownSecondsSet (oldValue newValue : Z)
| ContractPaused
| ContractUnpaused
| BatchOpened (batch : Z)
| BatchClosed (batch : Z)
| ResourcesSubmitted (provider : address) (batch : Z) (encryptedTotal encryptedRate : Z)
| DecryptionRequested (requestId batch : Z)
| DecryptionCompleted (requestId batch : Z) (totalResources collectionRate : Z).

Record DecryptionContext := mkContext {
  batchId : Z;
  stateHash : Z;
  processed : bool
}.

Record PlayerData := mkPlayerData {
  encryptedTotalResources : Z;
  encryptedCollectionRate : Z
}.

Record Storage := mkStorage {
  isProvider : gmap Z bool;
  playerData : gmap (Z * Z) PlayerData;
  batchOpen : gmap Z bool;
  decryptionContexts : gmap Z DecryptionContext;
  lastSubmissionTime : gmap Z Z;
  lastDecryptionRequestTime : gmap Z Z;
  owner : address;
  cooldownSeconds : Z;
  currentBatchId : Z;
  paused : bool
}.

(** Reading a mapping: an absent key reads as the zero value of its type. *)
Definition isProvider_at (st : Storage) (a : address) : bool :=
  default false (isProvider st !! a).
Definition playerData_at (st : Storage) (b : Z) (a : address) : PlayerData :=
  default (mkPlayerData 0 0) (playerData st !! (b, a)).
Definition batchOpen_at (st : Storage) (b : Z) : bool :=
  default false (batchOpen st !! b).
Definition decryptionContexts_at (st : Storage) (r : Z) : DecryptionContext :=
  default (mkContext 0 0 false) (decryptionContexts st !! r).
Definition lastSubmissionTime_at (st : Storage) (a : address) : Z :=
  default 0 (lastSubmissionTime st !! a).
Definition lastDecryptionRequestTime_at (st : Storage) (a : address) : Z :=
  default 0 (lastDecryptionRequestTime st !! a).

(** Storage before the constructor runs. *)
Definition empty_storage : Storage :=
  mkStorage ∅ ∅ ∅ ∅ ∅ ∅ 0 0 0 false.

(** The assignments the contract makes, one constructor per left-hand side. *)
Inductive Write :=
| W_isProvider (a : address) (v : bool)
| W_delete_isProvider (a : address)
| W_playerData (b : Z) (a : address) (d : PlayerData)
| W_batchOpen (b : Z) (v : bool)
| W_decryptionContexts (r : Z) (c : DecryptionContext)
| W_processed (r : Z) (v : bool)
| W_lastSubmissionTime (a : address) (t : Z)
| W_lastDecryptionRequestTime (a : address) (t : Z)
| W_owner (a : address)
| W_cooldownSeconds (c : Z)
| W_currentBatchId (b : Z)
| W_paused (v : bool).

Definition apply_write (w : Write) (st : Storage) : Storage :=
  let prov := isProvider st in
  let pd := playerData st in
  let bo := batchOpen st in
  let dc := decryptionContexts st in
  let lst := lastSubmissionTime st in
  let ldt := lastDecryptionRequestTime st in
  let ow := owner st in
  let cd := cooldownSeconds st in
  let cb := currentBatchId st in
  let pa := paused st in
  match w with
  | W_isProvider a v => mkStorage (<[a := v]> prov) pd bo dc lst ldt ow cd cb pa
  | W_delete_isProvider a => mkStorage (delete a prov) pd bo dc lst ldt ow cd cb pa
  | W_playerData b a d => mkStorage prov (<[(b, a) := d]> pd) bo dc lst ldt ow cd cb pa
  | W_batchOpen b v => mkStorage prov pd (<[b := v]> bo) dc lst ldt ow cd cb pa
  | W_decryptionContexts r c => mkStorage prov pd bo (<[r := c]> dc) lst ldt ow cd cb pa
  | W_processed r v =>
      let c := decryptionContexts_at st r in
      mkStorage prov pd bo (<[r := mkContext (batchId c) (stateHash c) v]> dc)
                lst ldt ow cd cb pa
  | W_lastSubmissionTime a t => mkStorage prov pd bo dc (<[a := t]> lst) ldt ow cd cb pa
  | W_lastDecryptionRequestTime a t => mkStorage prov pd bo dc lst (<[a := t]> ldt) ow cd cb pa
  | W_owner a => mkStorage prov pd bo dc lst ldt a cd cb pa
  | W_cooldownSeconds c => mkStorage prov pd bo dc lst ldt ow c cb pa
  | W_currentBatchId b => mkStorage prov pd bo dc lst ldt ow cd b pa
  | W_paused v => mkStorage prov pd bo dc lst ldt ow cd cb v
  end.

(** Calls into the FHE library. *)
Inductive LibCall :=
| Lib_requestDecryption (handles : list Z)
| Lib_checkSignatures (requestId : Z) (cleartexts proof : bytes).

Inductive Step :=
| SWrite (w : Write)
| SEmit (e : Event)
| SLib (c : LibCall).

Record World := mkWorld {
  storage : Storage;
  trace : list Step
}.

(** ** The monad of contract code *)

Inductive Result (A : Type) :=
| Done (a : A)
| Reverted (e : Error).
Arguments Done {A} a.
Arguments Reverted {A} e.

(** A computation returns its result together with the world it reached;
    on a revert that is the world at the point of the revert, so that a
    write made before a failing check stays visible. *)
Definition M (A : Type) : Type := World -> Result A * World.

Definition ret {A} (a : A) : M A := fun w => (Done a, w).

Definition bind {A B} (c : M A) (k : A -> M B) : M B :=
  fun w => match c w with
           | (Done a, w') => k a w'
           | (Reverted e, w') => (Reverted e, w')
           end.

Notation "'let*' x ':=' c 'in' k" := (bind c (fun x => k))
  (at level 10, x name, c at level 100, k at level 200).
Notation "c >> k" := (bind c (fun _ => k))
  (at level 62, right associativity).

Definition revert {A} (e : Error) : M A := fun w => (Reverted e, w).

Definition sload : M Storage := fun w => (Done (storage w), w).

Definition sstore (x : Write) : M unit :=
  fun w => (Done tt, mkWorld (apply_write x (storage w)) (trace w ++ [SWrite x])).

Definition emit (e : Event) : M unit :=
  fun w => (Done tt, mkWorld (storage w) (trace w ++ [SEmit e])).

Definition libcall (c : LibCall) : M unit :=
  fun w => (Done tt, mkWorld (storage w) (trace w ++ [SLib c])).

(** Checked [uint256] addition of Solidity 0.8. *)
Definition checked_add (a b : Z) : M Z :=
  if a + b <=? uint256_max then ret (a + b) else revert (Panic 17).

(** ** The contract *)

Section Contract.
Context {P : Platform}.

(** *** Modifiers: each wraps the function body it guards. *)

Definition onlyOwner (env : Env) {A} (body : M A) : M A :=
  let* st := sload in
  if negb (msg_sender env =? owner st) then revert NotOwner else body.

Definition onlyProvider (env : Env) {A} (body : M A) : M A :=
  let* st := sload in
  if negb (isProvider_at st (msg_sender env)) then revert NotProvider else body.

Definition whenNotPaused {A} (body : M A) : M A :=
  let* st := sload in
  if paused st then revert Paused else body.

Definition checkCooldown (env : Env) (_user : address) {A} (body : M A) : M A :=
  let* st := sload in
  let* windowEnd := checked_add (lastSubmissionTime_at st _user) (cooldownSeconds st) in
  if block_timestamp env <? windowEnd then revert CooldownActive else body.

(** *** Internal helpers *)

(** [euint32.toBytes32]: the handle itself. *)
Definition toBytes32 (h : Z) : Z := h.

Definition _hashCiphertexts (_cts : list Z) : Z :=
  let ctsBytes := map toBytes32 _cts in
  keccak256 (abi_encode_bytes32s_address ctsBytes this).

(** [FHE.requestDecryption(cts, this.myCallback.selector)]. *)
Definition FHE_requestDecryption (env : Env) (cts : list Z) : M Z :=
  libcall (Lib_requestDecryption cts) >>
  match oracle_requestId env with
  | Some requestId => ret requestId
  | None => revert LibraryRevert
  end.

(** [FHE.checkSignatures(requestId, cleartexts, proof)]. *)
Definition FHE_checkSignatures (env : Env) (requestId : Z) (cleartexts proof : bytes)
  : M unit :=
  libcall (Lib_checkSignatures requestId cleartexts proof) >>
  if oracle_signaturesValid env then ret tt else revert LibraryRevert.

(** [abi.decode(cleartexts[a:b], (uint32))]. *)
Definition decode_slice_uint32 (cleartexts : bytes) (a b : nat) : M Z :=
  match bytes_slice cleartexts a b with
  | None => revert DecodeRevert
  | Some word =>
      match abi_decode_uint32 word with
      | None => revert DecodeRevert
      | Some v => ret v
      end
  end.

(** *** Constructor and external functions *)

Definition constructor (env : Env) : M unit :=
  sstore (W_owner (msg_sender env)) >>
  sstore (W_cooldownSeconds 30) >>
  sstore (W_currentBatchId 1) >>
  let* st := sload in
  sstore (W_batchOpen (currentBatchId st) true).

Definition addProvider (env : Env) (_provider : address) : M unit :=
  onlyOwner env (
    if _provider =? 0 then revert InvalidArgument else
    sstore (W_isProvider _provider true) >>
    emit (ProviderAdded _provider)).

Definition removeProvider (env : Env) (_provider : address) : M unit :=
  onlyOwner env (
    let* st := sload in
    if negb (isProvider_at st _provider) then revert InvalidArgument else
    sstore (W_delete_isProvider _provider) >>
    emit (ProviderRemoved _provider)).

Definition setCooldownSeconds (env : Env) (_cooldownSeconds : Z) : M unit :=
  onlyOwner env (
    let* st := sload in
    emit (CooldownSecondsSet (cooldownSeconds st) _cooldownSeconds) >>
    sstore (W_cooldownSeconds _cooldownSeconds)).

Definition pause (env : Env) : M unit :=
  onlyOwner env (whenNotPaused (
    sstore (W_paused true) >>
    emit ContractPaused)).

Definition unpause (env : Env) : M unit :=
  onlyOwner env (
    let* st := sload in
    if negb (paused st) then revert InvalidArgument else
    sstore (W_paused false) >>
    emit ContractUnpaused).

Definition openNewBatch (env : Env) : M unit :=
  onlyOwner env (
    let* st := sload in
    let* next := checked_add (currentBatchId st) 1 in
    sstore (W_currentBatchId next) >>
    let* st := sload in
    sstore (W_batchOpen (currentBatchId st) true) >>
    let* st := sload in
    emit (BatchOpened (currentBatchId st))).

Definition closeCurrentBatch (env : Env) : M unit :=
  onlyOwner env (
    let* st := sload in
    if negb (batchOpen_at st (currentBatchId st)) then revert InvalidArgument else
    sstore (W_batchOpen (currentBatchId st) false) >>
    let* st := sload in
    emit (BatchClosed (currentBatchId st))).

Definition submitEncryptedResources (env : Env)
    (_encryptedTotalResources _encryptedCollectionRate : Z) : M unit :=
  onlyProvider env (whenNotPaused (checkCooldown env (msg_sender env) (
    let* st := sload in
    if negb (batchOpen_at st (currentBatchId st)) then revert BatchNotOpen else
    if negb (isInitialized _encryptedTotalResources) then revert InvalidArgument else
    if negb (isInitialized _encryptedCollectionRate) then revert InvalidArgument else
    sstore (W_playerData (currentBatchId st) (msg_sender env)
              (mkPlayerData _encryptedTotalResources _encryptedCollectionRate)) >>
    sstore (W_lastSubmissionTime (msg_sender env) (block_timestamp env)) >>
    let* st := sload in
    emit (ResourcesSubmitted (msg_sender env) (currentBatchId st)
            (toBytes32 _encryptedTotalResources)
            (toBytes32 _encryptedCollectionRate))))).

Definition requestDecryptionForPlayer (env : Env) (_playerAddress : address) : M unit :=
  onlyProvider env (whenNotPaused (checkCooldown env (msg_sender env) (
    let* st := sload in
    if negb (batchOpen_at st (currentBatchId st)) then revert BatchNotOpen else
    let data := playerData_at st (currentBatchId st) _playerAddress in
    if (negb (isInitialized (encryptedTotalResources data))
        || negb (isInitialized (encryptedCollectionRate data)))%bool
    then revert InvalidArgument else
    let ctsArray := [encryptedTotalResources data; encryptedCollectionRate data] in
    let stateHash := _hashCiphertexts ctsArray in
    let* requestId := FHE_requestDecryption env ctsArray in
    let* st := sload in
    sstore (W_decryptionContexts requestId
              (mkContext (currentBatchId st) stateHash false)) >>
    sstore (W_lastDecryptionRequestTime (msg_sender env) (block_timestamp env)) >>
    let* st := sload in
    emit (DecryptionRequested requestId (currentBatchId st))))).

Definition myCallback (env : Env) (requestId : Z) (cleartexts proof : bytes) : M unit :=
  let* st := sload in
  if processed (decryptionContexts_at st requestId) then revert ReplayAttempt else
  let data := playerData_at st (batchId (decryptionContexts_at st requestId))
                            (msg_sender env) in
  let ctsArray := [encryptedTotalResources data; encryptedCollectionRate data] in
  let currentHash := _hashCiphertexts ctsArray in
  if negb (currentHash =? stateHash (decryptionContexts_at st requestId))
  then revert StateMismatch else
  FHE_checkSignatures env requestId cleartexts proof >>
  let* totalResources := decode_slice_uint32 cleartexts 0 32 in
  let* collectionRate := decode_slice_uint32 cleartexts 32 64 in
  sstore (W_processed requestId true) >>
  let* st := sload in
  emit (DecryptionCompleted requestId (batchId (decryptionContexts_at st requestId))
          totalResources collectionRate).

(** *** Transactions *)

Inductive Call :=
| Call_addProvider (_provider : address)
| Call_removeProvider (_provider : address)
| Call_setCooldownSeconds (_cooldownSeconds : Z)
| Call_pause
| Call_unpause
| Call_openNewBatch
| Call_closeCurrentBatch
| Call_submitEncryptedResources (_encryptedTotalResources _encryptedCollectionRate : Z)
| Call_requestDecryptionForPlayer (_playerAddress : address)
| Call_myCallback (requestId : Z) (cleartexts proof : bytes).

Definition dispatch (env : Env) (c : Call) : M unit :=
  match c with
  | Call_addProvider p => addProvider env p
  | Call_removeProvider p => removeProvider env p
  | Call_setCooldownSeconds cd => setCooldownSeconds env cd
  | Call_pause => pause env
  | Call_unpause => unpause env
  | Call_openNewBatch => openNewBatch env
  | Call_closeCurrentBatch => closeCurrentBatch env
  | Call_submitEncryptedResources t r => submitEncryptedResources env t r
  | Call_requestDecryptionForPlayer p => requestDecryptionForPlayer env p
  | Call_myCallback r ct pf => myCallback env r ct pf
  end.

(** Running a function body as one transaction on storage [st]. *)
Definition run {A} (c : M A) (st : Storage) : Result A * World :=
  c (mkWorld st []).

(** The storage a transaction leaves: the platform discards the world of a
    reverted call. *)
Definition transact (env : Env) (c : Call) (st : Storage) : Storage :=
  match run (dispatch env c) st with
  | (Done _, w) => storage w
  | (Reverted _, _) => st
  end.

Definition deploy (env : Env) : Storage :=
  storage (snd (run (constructor env) empty_storage)).

(** The storages the contract can be in. *)
Inductive reachable : Storage -> Prop :=
| reachable_deploy env : reachable (deploy env)
| reachable_transact env c st : reachable st -> reachable (transact env c st).

(** Storage after a sequence of transactions. *)
Fixpoint transact_all (txs : list (Env * Call)) (st : Storage) : Storage :=
  match txs with
  | [] => st
  | (env, c) :: rest => transact_all rest (transact env c st)
  end.

End Contract.

(** ** Vocabulary of the statements *)

(** Storage [st] with the allow-list, the pause flag and the cooldown data
    replaced. *)
Definition with_gates (st : Storage) (prov : gmap Z bool) (lst ldt : gmap Z Z)
    (cd : Z) (pa : bool) : Storage :=
  mkStorage prov (playerData st) (batchOpen st) (decryptionContexts st)
            lst ldt (owner st) cd (currentBatchId st) pa.

(** The world a decryption request for [p] leaves when the library hands
    out [requestId]. *)
Definition request_world {P : Platform} (env : Env) (st : Storage) (p : address)
    (requestId : Z) : World :=
  let data := playerData_at st (currentBatchId st) p in
  let handles := [encryptedTotalResources data; encryptedCollectionRate data] in
  let context := mkContext (currentBatchId st) (_hashCiphertexts handles) false in
  let w1 := W_decryptionContexts requestId context in
  let w2 := W_lastDecryptionRequestTime (msg_sender env) (block_timestamp env) in
  mkWorld (apply_write w2 (apply_write w1 st))
          [SLib (Lib_requestDecryption handles); SWrite w1; SWrite w2;
           SEmit (DecryptionRequested requestId (currentBatchId st))].

(** When a decryption request goes through, and what it leaves. *)
Definition request_accepted {P : Platform} (env : Env) (st : Storage) (p : address)
  : Prop :=
  isProvider_at st (msg_sender env) = true /\
  paused st = false /\
  lastSubmissionTime_at st (msg_sender env) + cooldownSeconds st <= uint256_max /\
  lastSubmissionTime_at st (msg_sender env) + cooldownSeconds st <= block_timestamp env /\
  batchOpen_at st (currentBatchId st) = true /\
  isInitialized (encryptedTotalResources (playerData_at st (currentBatchId st) p)) = true /\
  isInitialized (encryptedCollectionRate (playerData_at st (currentBatchId st) p)) = true.

(** The callback with its steps in the order the specification gives them:
    hash comparison, proof check, replay check, decoding, marking, event. *)
Definition myCallback_spec_order {P : Platform} (env : Env) (requestId : Z)
    (cleartexts proof : bytes) : M unit :=
  let* st := sload in
  let data := playerData_at st (batchId (decryptionContexts_at st requestId))
                            (msg_sender env) in
  let ctsArray := [encryptedTotalResources data; encryptedCollectionRate data] in
  let currentHash := _hashCiphertexts ctsArray in
  if negb (currentHash =? stateHash (decryptionContexts_at st requestId))
  then revert StateMismatch else
  FHE_checkSignatures env requestId cleartexts proof >>
  let* st := sload in
  if processed (decryptionContexts_at st requestId) then revert ReplayAttempt else
  let* totalResources := decode_slice_uint32 cleartexts 0 32 in
  let* collectionRate := decode_slice_uint32 cleartexts 32 64 in
  sstore (W_processed requestId true) >>
  let* st := sload in
  emit (DecryptionCompleted requestId (batchId (decryptionContexts_at st requestId))
          totalResources collectionRate).

(** The 32-bit value in bytes [a, b) of the cleartexts, when there is one. *)
Definition decoded (cleartexts : bytes) (a b : nat) : option Z :=
  match bytes_slice cleartexts a b with
  | Some word => abi_decode_uint32 word
  | None => None
  end.

(** The outcome of the callback, check by check in the order of the code. *)
Definition callback_outcome {P : Platform} (env : Env) (st : Storage) (requestId : Z)
    (cleartexts proof : bytes) : Result unit * World :=
  let context := decryptionContexts_at st requestId in
  let data := playerData_at st (batchId context) (msg_sender env) in
  let currentHash :=
    _hashCiphertexts [encryptedTotalResources data; encryptedCollectionRate data] in
  let check := SLib (Lib_checkSignatures requestId cleartexts proof) in
  if processed context then (Reverted ReplayAttempt, mkWorld st [])
  else if negb (currentHash =? stateHash context)
  then (Reverted StateMismatch, mkWorld st [])
  else if negb (oracle_signaturesValid env)
  then (Reverted LibraryRevert, mkWorld st [check])
  else match decoded cleartexts 0 32, decoded cleartexts 32 64 with
       | Some totalResources, Some collectionRate =>
           (Done tt,
            mkWorld (apply_write (W_processed requestId true) st)
              [check;
               SWrite (W_processed requestId true);
               SEmit (DecryptionCompleted requestId (batchId context)
                        totalResources collectionRate)])
       | _, _ => (Reverted DecodeRevert, mkWorld st [check])
       end.

(** The transaction is a decryption request to which the library hands
    out [requestId]. *)
Definition hands_out (requestId : Z) (tx : Env * Call) : Prop :=
  match snd tx with
  | Call_requestDecryptionForPlayer _ => oracle_requestId (fst tx) = Some requestId
  | _ => False
  end.

(** ** A concrete platform and concrete transactions

    Used to run the contract on explicit inputs. *)
Module Demo.

(** A toy stand-in for the hash: it only has to tell apart the few
    handle pairs of the examples below. *)
Definition toy_hash (ws : list Z) : Z :=
  fold_left (fun acc w => (acc * 31 + w) mod 2 ^ 256) ws 7.

#[export] Instance platform : Platform := {|
  this := 4096;
  keccak256 := toy_hash;
  isInitialized := fun h => negb (h =? 0)
|}.

Definition alice : address := 10.   (* deployer and owner *)
Definition bob : address := 20.     (* an allow-listed provider *)
Definition carol : address := 30.   (* never allow-listed *)

(** A transaction environment of [who] at time [t]; the library hands
    out request id [rid] and accepts every proof. *)
Definition at_time (who : address) (t : Z) (rid : Z) : Env :=
  mkEnv who t (Some rid) true.

(** Two 32-byte words holding [a] and [b] (both below 256). *)
Definition word_of (b : byte) : bytes := repeat x00 31 ++ [b].
Definition cleartexts_7_3 : bytes := word_of x07 ++ word_of x03.

(** Deployed by alice, bob allow-listed. *)
Definition st_ready : Storage :=
  transact_all [(at_time alice 1000 0, Call_addProvider bob)]
               (deploy (at_time alice 1000 0)).

(** ... then bob submits handles 111 and 222 at time 2000. *)
Definition st_submitted : Storage :=
  transact (at_time bob 2000 0) (Call_submitEncryptedResources 111 222) st_ready.

(** ... then bob requests decryption of his own entry at time 3000 and
    the library hands out request id 5. *)
Definition st_requested : Storage :=
  transact (at_time bob 3000 5) (Call_requestDecryptionForPlayer bob) st_submitted.

(** ... then the callback for request 5 arrives, sent by bob. *)
Definition st_completed : Storage :=
  transact (at_time bob 3100 0) (Call_myCallback 5 cleartexts_7_3 []) st_requested.

(** [st_submitted] with the contract paused by alice. *)
Definition st_paused : Storage :=
  transact (at_time alice 2500 0) Call_pause st_submitted.

(** [st_submitted] with bob taken off the allow-list again. *)
Definition st_bob_removed : Storage :=
  transact (at_time alice 2001 0) (Call_removeProvider bob) st_submitted.

(** [st_submitted] with the current batch closed. *)
Definition st_batch_closed : Storage :=
  transact (at_time alice 2500 0) Call_closeCurrentBatch st_submitted.

End Demo.

(** ** Vocabulary of the further statements *)

(** The functions guarded by [onlyOwner]. *)
Definition owner_call (c : Call) : bool :=
  match c with
  | Call_addProvider _ | Call_removeProvider _ | Call_setCooldownSeconds _
  | Call_pause | Call_unpause | Call_openNewBatch | Call_closeCurrentBatch => true
  | _ => false
  end.

(** What only the owner administers: allow-list, cooldown length, pause
    flag, current batch id and batch flags. *)
Definition admin_state (st : Storage) : gmap Z bool * Z * bool * Z * gmap Z bool :=
  (isProvider st, cooldownSeconds st, paused st, currentBatchId st, batchOpen st).

(** ** The front end (frontend/web/src/App.tsx)

    The placeholder encryption of the page and the two computations it
    makes over the loaded records.  JavaScript's own functions are taken
    from a runtime: numbers are an abstract type, [btoa] and [atob] fail
    ([None]) where the browser throws. *)
Module Frontend.

Class JsRuntime := {
  number : Type;
  toString : number -> String.string;
  parseFloat : String.string -> number;
  btoa : String.string -> option String.string;
  atob : String.string -> option String.string;
  toLowerCase : String.string -> String.string
}.

Record ResourceRecord {R : JsRuntime} := mkResourceRecord {
  id : String.string;
  encryptedAmount : String.string;
  encryptedRate : String.string;
  timestamp : number;
  owner : String.string;
  resourceType : String.string;
  status : String.string
}.

(** [s.startsWith(t)], [s.substring(n)] and [s.includes(t)]. *)
Definition startsWith (s t : String.string) : bool := String.prefix t s.

Definition substring_from (n : nat) (s : String.string) : String.string :=
  String.substring n (String.length s - n) s.

Fixpoint includes (s t : String.string) : bool :=
  (String.prefix t s ||
   match s with
   | String.EmptyString => false
   | String.String _ rest => includes rest t
   end)%bool.

Section App.
Context {R : JsRuntime}.

Definition FHEEncryptNumber (value : number) : option String.string :=
  match btoa (toString value) with
  | Some b => Some (String.append "FHE-"%string b)
  | None => None
  end.

Definition FHEDecryptNumber (encryptedData : String.string) : option number :=
  if startsWith encryptedData "FHE-"%string then
    match atob (substring_from 4 encryptedData) with
    | Some d => Some (parseFloat d)
    | None => None
    end
  else Some (parseFloat encryptedData).

Definition RESOURCE_TYPES : list String.string :=
  ["minerals"; "gas"; "energy"; "credits"]%string.

(** [resources.filter(r => r.resourceType === t).length]. *)
Definition total_of (t : String.string) (resources : list ResourceRecord) : nat :=
  length (List.filter (fun r => String.eqb (resourceType r) t) resources).

Definition totalMinerals := total_of "minerals"%string.
Definition totalGas := total_of "gas"%string.
Definition totalEnergy := total_of "energy"%string.
Definition totalCredits := total_of "credits"%string.

Definition filteredResources (resources : list ResourceRecord)
    (searchTerm filterType : String.string) : list ResourceRecord :=
  List.filter (fun resource =>
            let matchesSearch :=
              (includes (toLowerCase (id resource)) (toLowerCase searchTerm)
               || includes (toLowerCase (resourceType resource)) (toLowerCase searchTerm))%bool in
            let matchesType :=
              (String.eqb filterType "all"%string
               || String.eqb (resourceType resource) filterType)%bool in
            (matchesSearch && matchesType)%bool)
         resources.

End App.

(** A runtime to run the page's functions on: natural numbers printed in
    decimal, standard base64, ASCII lower-casing. *)
Module Js.

Definition base64_char (n : N) : Ascii.ascii :=
  Ascii.ascii_of_N
    (if n <? 26 then 65 + n
     else if n <? 52 then 97 + (n - 26)
     else if n <? 62 then 48 + (n - 52)
     else if n =? 62 then 43 else 47)%N.

Definition base64_value (c : Ascii.ascii) : option N :=
  let n := Ascii.N_of_ascii c in
  (if (65 <=? n) && (n <=? 90) then Some (n - 65)
   else if (97 <=? n) && (n <=? 122) then Some (n - 97 + 26)
   else if (48 <=? n) && (n <=? 57) then Some (n - 48 + 52)
   else if n =? 43 then Some 62
   else if n =? 47 then Some 63
   else None)%N%bool.

Fixpoint base64_encode (bs : list N) : list Ascii.ascii :=
  match bs with
  | [] => []
  | [a] =>
      [base64_char (a / 4); base64_char ((a mod 4) * 16);
       Ascii.ascii_of_N 61; Ascii.ascii_of_N 61]%N
  | [a; b] =>
      [base64_char (a / 4); base64_char ((a mod 4) * 16 + b / 16);
       base64_char ((b mod 16) * 4); Ascii.ascii_of_N 61]%N
  | a :: b :: c :: rest =>
      ([base64_char (a / 4); base64_char ((a mod 4) * 16 + b / 16);
        base64_char ((b mod 16) * 4 + c / 64); base64_char (c mod 64)]%N)
      ++ base64_encode rest
  end.

Fixpoint base64_decode (vs : list N) : option (list N) :=
  match vs with
  | [] => Some []
  | [_] => None
  | [a; b] => Some [a * 4 + b / 16]%N
  | [a; b; c] => Some [a * 4 + b / 16; (b mod 16) * 16 + c / 4]%N
  | a :: b :: c :: d :: rest =>
      match base64_decode rest with
      | Some tail =>
          Some ([a * 4 + b / 16; (b mod 16) * 16 + c / 4; (c mod 4) * 64 + d]%N ++ tail)
      | None => None
      end
  end.

Definition js_btoa (s : String.string) : option String.string :=
  Some (String.string_of_list_ascii
          (base64_encode (map Ascii.N_of_ascii (String.list_ascii_of_string s)))).

Definition js_atob (s : String.string) : option String.string :=
  let body := List.filter (fun c => negb (Ascii.eqb c (Ascii.ascii_of_N 61)))
                     (String.list_ascii_of_string s) in
  match mapM base64_value body with
  | Some vs =>
      match base64_decode vs with
      | Some bs => Some (String.string_of_list_ascii (map Ascii.ascii_of_N bs))
      | None => None
      end
  | None => None
  end.

Definition lower_ascii (c : Ascii.ascii) : Ascii.ascii :=
  let n := Ascii.N_of_ascii c in
  if ((65 <=? n) && (n <=? 90))%N%bool then Ascii.ascii_of_N (n + 32) else c.

Definition js_toLowerCase (s : String.string) : String.string :=
  String.string_of_list_ascii (map lower_ascii (String.list_ascii_of_string s)).

Definition js_toString (n : N) : String.string :=
  DecimalString.NilZero.string_of_uint (N.to_uint n).

Definition js_parseFloat (s : String.string) : N :=
  match DecimalString.NilZero.uint_of_string s with
  | Some u => N.of_uint u
  | None => 0%N
  end.

#[export] Instance runtime : JsRuntime := {|
  number := N;
  toString := js_toString;
  parseFloat := js_parseFloat;
  btoa := js_btoa;
  atob := js_atob;
  toLowerCase := js_toLowerCase
|}.

Definition record (name kind : String.string) : ResourceRecord (R := runtime) :=
  @mkResourceRecord runtime name "FHE-NDI="%string "FHE-Nw=="%string
    1700000000%N "0xabc"%string kind "active"%string.

Definition sample : list (ResourceRecord (R := runtime)) :=
  [record "res-1" "minerals"; record "res-2" "gas"; record "res-3" "minerals";
   record "res-4" "credits"; record "res-5" "wood"]%string.

End Js.

End Frontend.

(** ** Proof tools *)

Ltac unfold_monad :=
  unfold run, bind, ret, revert, sload, sstore, emit, libcall, checked_add in *.

Ltac unfold_guards :=
  unfold onlyOwner, onlyProvider, whenNotPaused, checkCooldown in *.

Ltac unfold_calls :=
  unfold dispatch, addProvider, removeProvider, setCooldownSeconds, pause, unpause,
    openNewBatch, closeCurrentBatch, submitEncryptedResources,
    requestDecryptionForPlayer, myCallback, FHE_requestDecryption,
    FHE_checkSignatures, decode_slice_uint32 in *.

Ltac unfold_contract := unfold_calls; unfold_guards; unfold_monad; simpl in *.

(** Split on every test the goal still branches on. *)
Ltac split_tests :=
  repeat (simpl in *;
          match goal with
          | |- context [if ?b then _ else _] =>
              lazymatch type of b with bool => destruct b eqn:? end
          | |- context [match ?x with Some _ => _ | None => _ end] =>
              destruct x eqn:?
          end);
  simpl in *.

Example demo_sanity :
  isProvider_at Demo.st_completed Demo.bob = true /\
  processed (decryptionContexts_at Demo.st_completed 5) = true /\
  processed (decryptionContexts_at Demo.st_requested 5) = false /\
  paused Demo.st_paused = true /\
  isProvider_at Demo.st_bob_removed Demo.bob = false /\
  batchOpen_at Demo.st_batch_closed 1 = false.
Proof. vm_compute. repeat split; reflexivity. Qed.

(** ** The guards of the two provider operations *)

Section Guards.
Context {P : Platform}.

(** The allow-list test is the first thing both operations do. *)
Lemma submit_not_provider env st t r :
  isProvider_at st (msg_sender env) = false ->
  run (submitEncryptedResources env t r) st = (Reverted NotProvider, mkWorld st []).
Proof. intros H. unfold_contract. rewrite H. reflexivity. Qed.

Lemma request_not_provider env st p :
  isProvider_at st (msg_sender env) = false ->
  run (requestDecryptionForPlayer env p) st = (Reverted NotProvider, mkWorld st []).
Proof. intros H. unfold_contract. rewrite H. reflexivity. Qed.

Lemma onlyProvider_pass env st A (body : M A) :
  isProvider_at st (msg_sender env) = true ->
  run (onlyProvider env body) st = run body st.
Proof. intros H. unfold_guards; unfold_monad; simpl. rewrite H. reflexivity. Qed.

Lemma whenNotPaused_pass st A (body : M A) :
  paused st = false -> run (whenNotPaused body) st = run body st.
Proof. intros H. unfold_guards; unfold_monad; simpl. rewrite H. reflexivity. Qed.

Lemma whenNotPaused_block st A (body : M A) :
  paused st = true ->
  run (whenNotPaused body) st = (Reverted Paused, mkWorld st []).
Proof. intros H. unfold_guards; unfold_monad; simpl. rewrite H. reflexivity. Qed.

Lemma checkCooldown_pass env st u A (body : M A) :
  lastSubmissionTime_at st u + cooldownSeconds st <= uint256_max ->
  lastSubmissionTime_at st u + cooldownSeconds st <= block_timestamp env ->
  run (checkCooldown env u body) st = run body st.
Proof.
  intros Hfit Hafter. unfold_guards; unfold_monad; simpl.
  destruct (Z.leb_spec (lastSubmissionTime_at st u + cooldownSeconds st) uint256_max);
    [simpl | lia].
  destruct (Z.ltb_spec (block_timestamp env)
              (lastSubmissionTime_at st u + cooldownSeconds st)); [lia | reflexivity].
Qed.

Lemma checkCooldown_block env st u A (body : M A) :
  lastSubmissionTime_at st u + cooldownSeconds st <= uint256_max ->
  block_timestamp env < lastSubmissionTime_at st u + cooldownSeconds st ->
  run (checkCooldown env u body) st = (Reverted CooldownActive, mkWorld st []).
Proof.
  intros Hfit Hbefore. unfold_guards; unfold_monad; simpl.
  destruct (Z.leb_spec (lastSubmissionTime_at st u + cooldownSeconds st) uint256_max);
    [simpl | lia].
  destruct (Z.ltb_spec (block_timestamp env)
              (lastSubmissionTime_at st u + cooldownSeconds st)); [reflexivity | lia].
Qed.

(** No guard of the two operations raises [NotProvider] once the
    allow-list test has passed. *)
Lemma submit_provider_not_NotProvider env st t r :
  isProvider_at st (msg_sender env) = true ->
  fst (run (submitEncryptedResources env t r) st) <> Reverted NotProvider.
Proof.
  intros H. unfold_contract. rewrite H. simpl.
  split_tests; discriminate.
Qed.

Lemma request_provider_not_NotProvider env st p :
  isProvider_at st (msg_sender env) = true ->
  fst (run (requestDecryptionForPlayer env p) st) <> Reverted NotProvider.
Proof.
  intros H. unfold_contract. rewrite H. simpl.
  split_tests; discriminate.
Qed.

End Guards.

(** ** Access control and pausing *)

(** C5: a caller that is not on the provider allow-list gets [NotProvider]
    from both [submitEncryptedResources] and [requestDecryptionForPlayer],
    with nothing written; a caller on the allow-list passes the gate:
    [onlyProvider] runs the guarded body, and neither operation can end
    in [NotProvider]. *)
Theorem C5_provider_allow_list {P : Platform} (env : Env) (st : Storage) :
  (isProvider_at st (msg_sender env) = false ->
     (forall t r, run (submitEncryptedResources env t r) st
                  = (Reverted NotProvider, mkWorld st [])) /\
     (forall p, run (requestDecryptionForPlayer env p) st
                = (Reverted NotProvider, mkWorld st []))) /\
  (isProvider_at st (msg_sender env) = true ->
     (forall A (body : M A), run (onlyProvider env body) st = run body st) /\
     (forall t r, fst (run (submitEncryptedResources env t r) st)
                  <> Reverted NotProvider) /\
     (forall p, fst (run (requestDecryptionForPlayer env p) st)
                <> Reverted NotProvider)).
Proof.
  split; intros H.
  - split; intros.
    + now apply submit_not_provider.
    + now apply request_not_provider.
  - repeat split; intros.
    + now apply onlyProvider_pass.
    + now apply submit_provider_not_NotProvider.
    + now apply request_provider_not_NotProvider.
Qed.

Lemma C5_provider_allow_list_witness :
  run (submitEncryptedResources (P := Demo.platform) (Demo.at_time Demo.carol 9000 0) 111 222) Demo.st_submitted
    = (Reverted NotProvider, mkWorld Demo.st_submitted []) /\
  fst (run (requestDecryptionForPlayer (P := Demo.platform) (Demo.at_time Demo.bob 9000 0) Demo.bob)
           Demo.st_submitted)
    <> Reverted NotProvider.
Proof.
  split.
  - apply (proj1 (C5_provider_allow_list (Demo.at_time Demo.carol 9000 0)
                    Demo.st_submitted)).
    vm_compute. reflexivity.
  - apply (proj2 (C5_provider_allow_list (Demo.at_time Demo.bob 9000 0)
                    Demo.st_submitted)).
    vm_compute. reflexivity.
Defined.

(** C6, as stated, fails: with the contract paused, a caller that is not
    on the allow-list is turned away by [onlyProvider], which runs before
    [whenNotPaused], so the call ends in [NotProvider] and not in [Paused]. *)
Lemma C6_counterexample :
  paused Demo.st_paused = true /\
  fst (run (submitEncryptedResources (P := Demo.platform) (Demo.at_time Demo.carol 9000 0) 111 222)
           Demo.st_paused) = Reverted NotProvider /\
  fst (run (submitEncryptedResources (P := Demo.platform) (Demo.at_time Demo.carol 9000 0) 111 222)
           Demo.st_paused) <> Reverted Paused.
Proof. vm_compute. split; [reflexivity | split; [reflexivity | discriminate]]. Qed.

(** C6, amended: while the paused flag is set, [submitEncryptedResources]
    and [requestDecryptionForPlayer] revert for every caller and every
    argument without writing anything: with [Paused] when the caller is on
    the allow-list, with [NotProvider] otherwise. *)
Theorem C6_paused_blocks_providers {P : Platform} (env : Env) (st : Storage) :
  paused st = true ->
  let failure := if isProvider_at st (msg_sender env) then Paused else NotProvider in
  (forall t r, run (submitEncryptedResources env t r) st
               = (Reverted failure, mkWorld st [])) /\
  (forall p, run (requestDecryptionForPlayer env p) st
             = (Reverted failure, mkWorld st [])).
Proof.
  intros Hp failure. subst failure.
  split; intros; unfold_contract;
    destruct (isProvider_at st (msg_sender env)); simpl; rewrite ?Hp; reflexivity.
Qed.

Lemma C6_paused_blocks_providers_witness :
  run (submitEncryptedResources (P := Demo.platform) (Demo.at_time Demo.bob 9000 0) 111 222) Demo.st_paused
    = (Reverted Paused, mkWorld Demo.st_paused []).
Proof.
  apply (proj1 (C6_paused_blocks_providers (Demo.at_time Demo.bob 9000 0)
                  Demo.st_paused eq_refl)).
Defined.

(** C10: [myCallback] carries none of the three guards.  For every caller,
    in every storage (paused or not), it never ends in [NotProvider],
    [Paused] or [CooldownActive], and its outcome does not depend on the
    allow-list, the pause flag, the cooldown length or the recorded
    submission and request times: only its own replay, state-hash, proof
    and decoding checks decide it. *)
Theorem C10_callback_ungated {P : Platform} (env : Env) (st : Storage)
    (requestId : Z) (cleartexts proof : bytes) :
  fst (run (myCallback env requestId cleartexts proof) st) <> Reverted NotProvider /\
  fst (run (myCallback env requestId cleartexts proof) st) <> Reverted Paused /\
  fst (run (myCallback env requestId cleartexts proof) st) <> Reverted CooldownActive /\
  (forall prov lst ldt cd pa,
     fst (run (myCallback env requestId cleartexts proof) (with_gates st prov lst ldt cd pa))
     = fst (run (myCallback env requestId cleartexts proof) st)).
Proof.
  repeat split.
  1-3: unfold_contract; split_tests; discriminate.
  intros. unfold_contract.
  unfold decryptionContexts_at, playerData_at, with_gates. simpl.
  split_tests; reflexivity.
Qed.

(** ** The cooldown *)

(** C3, as stated, fails on both halves.  Before the end of his window,
    a sender who has been taken off the allow-list gets [NotProvider], not
    [CooldownActive]; at the end of the window, an allow-listed sender whose
    batch has been closed gets [BatchNotOpen] instead of succeeding. *)
Lemma C3_counterexample :
  (lastSubmissionTime_at Demo.st_bob_removed Demo.bob
     + cooldownSeconds Demo.st_bob_removed = 2030 /\
   fst (run (submitEncryptedResources (P := Demo.platform)
               (Demo.at_time Demo.bob 2010 0) 111 222) Demo.st_bob_removed)
     <> Reverted CooldownActive) /\
  (lastSubmissionTime_at Demo.st_batch_closed Demo.bob
     + cooldownSeconds Demo.st_batch_closed = 2030 /\
   fst (run (submitEncryptedResources (P := Demo.platform)
               (Demo.at_time Demo.bob 2030 0) 111 222) Demo.st_batch_closed)
     = Reverted BatchNotOpen).
Proof.
  vm_compute.
  split; (split; [reflexivity | try reflexivity; try discriminate]).
Qed.

(** C3, amended: for an allow-listed sender, while the contract is not
    paused and the end of the window (the sender's last submission time
    plus [cooldownSeconds]) fits in 256 bits, [submitEncryptedResources]
    before the end of the window reverts with [CooldownActive] and writes
    nothing; at or after the end of the window it succeeds whenever the
    current batch is open and both handles are initialised, and it then
    records the handles and restarts the window at the current time. *)
Theorem C3_submission_cooldown {P : Platform} (env : Env) (st : Storage) (t r : Z) :
  isProvider_at st (msg_sender env) = true ->
  paused st = false ->
  lastSubmissionTime_at st (msg_sender env) + cooldownSeconds st <= uint256_max ->
  (block_timestamp env < lastSubmissionTime_at st (msg_sender env) + cooldownSeconds st ->
     run (submitEncryptedResources env t r) st
     = (Reverted CooldownActive, mkWorld st [])) /\
  (lastSubmissionTime_at st (msg_sender env) + cooldownSeconds st <= block_timestamp env ->
   batchOpen_at st (currentBatchId st) = true ->
   isInitialized t = true ->
   isInitialized r = true ->
     exists w,
       run (submitEncryptedResources env t r) st = (Done tt, w) /\
       playerData_at (storage w) (currentBatchId st) (msg_sender env) = mkPlayerData t r /\
       lastSubmissionTime_at (storage w) (msg_sender env) = block_timestamp env).
Proof.
  intros Hprov Hpa Hfit. split.
  - intros Hbefore. unfold submitEncryptedResources.
    rewrite onlyProvider_pass, whenNotPaused_pass by assumption.
    now apply checkCooldown_block.
  - intros Hafter Hopen Ht Hr. unfold submitEncryptedResources.
    rewrite onlyProvider_pass, whenNotPaused_pass, checkCooldown_pass by assumption.
    unfold_monad. simpl. rewrite Hopen, Ht, Hr. simpl.
    eexists. split; [reflexivity |]. simpl.
    unfold playerData_at, lastSubmissionTime_at. simpl.
    rewrite !lookup_insert_eq. split; reflexivity.
Qed.

Lemma C3_submission_cooldown_witness :
  run (submitEncryptedResources (P := Demo.platform)
         (Demo.at_time Demo.bob 2029 0) 333 444) Demo.st_submitted
    = (Reverted CooldownActive, mkWorld Demo.st_submitted []) /\
  exists w,
    run (submitEncryptedResources (P := Demo.platform)
           (Demo.at_time Demo.bob 2030 0) 333 444) Demo.st_submitted = (Done tt, w) /\
    playerData_at (storage w) (currentBatchId Demo.st_submitted) Demo.bob
      = mkPlayerData 333 444 /\
    lastSubmissionTime_at (storage w) Demo.bob = 2030.
Proof.
  split.
  - apply (proj1 (C3_submission_cooldown (P := Demo.platform)
                    (Demo.at_time Demo.bob 2029 0) Demo.st_submitted 333 444
                    eq_refl eq_refl ltac:(vm_compute; discriminate))).
    vm_compute. reflexivity.
  - apply (proj2 (C3_submission_cooldown (P := Demo.platform)
                    (Demo.at_time Demo.bob 2030 0) Demo.st_submitted 333 444
                    eq_refl eq_refl ltac:(vm_compute; discriminate))).
    + vm_compute. discriminate.
    + reflexivity.
    + reflexivity.
    + reflexivity.
Defined.

(** [requestDecryptionForPlayer] records the request time in
    [lastDecryptionRequestTime] and leaves [lastSubmissionTime], the only
    time [checkCooldown] reads, as it was. *)
Lemma request_keeps_cooldown_data {P : Platform} env st p w :
  run (requestDecryptionForPlayer env p) st = (Done tt, w) ->
  lastSubmissionTime (storage w) = lastSubmissionTime st /\
  cooldownSeconds (storage w) = cooldownSeconds st /\
  lastDecryptionRequestTime_at (storage w) (msg_sender env) = block_timestamp env.
Proof.
  unfold_contract. split_tests; intros H; try discriminate.
  inversion H; subst; clear H. simpl.
  unfold lastDecryptionRequestTime_at. simpl. rewrite lookup_insert_eq.
  repeat split; reflexivity.
Qed.

Lemma request_done_inv {P : Platform} env st p w :
  run (requestDecryptionForPlayer env p) st = (Done tt, w) ->
  request_accepted env st p /\
  exists requestId,
    oracle_requestId env = Some requestId /\ w = request_world env st p requestId.
Proof.
  unfold request_accepted, request_world.
  unfold_contract. split_tests; intros H; try discriminate.
  inversion H; subst; clear H.
  repeat match goal with
         | H : negb _ = false |- _ => apply negb_false_iff in H
         | H : (_ || _)%bool = false |- _ => apply orb_false_iff in H; destruct H
         | H : (_ <=? _) = true |- _ => apply Z.leb_le in H
         | H : (_ <? _) = false |- _ => apply Z.ltb_ge in H
         end.
  repeat split; try assumption.
  eexists. split; [reflexivity | congruence].
Qed.

Lemma request_done_intro {P : Platform} env st p requestId :
  request_accepted env st p ->
  oracle_requestId env = Some requestId ->
  run (requestDecryptionForPlayer env p) st = (Done tt, request_world env st p requestId).
Proof.
  intros (Hp & Hpa & Hfit & Hafter & Hopen & H1 & H2) Hrid.
  unfold requestDecryptionForPlayer.
  rewrite onlyProvider_pass, whenNotPaused_pass, checkCooldown_pass by assumption.
  unfold FHE_requestDecryption, request_world. unfold_monad. simpl.
  rewrite Hopen, H1, H2, Hrid. reflexivity.
Qed.

(** A decryption request that went through can be repeated by the same
    sender at once: the request did not restart the sender's window. *)
Lemma request_repeatable {P : Platform} env st p w env' requestId' :
  run (requestDecryptionForPlayer env p) st = (Done tt, w) ->
  msg_sender env' = msg_sender env ->
  block_timestamp env <= block_timestamp env' ->
  oracle_requestId env' = Some requestId' ->
  run (requestDecryptionForPlayer env' p) (storage w)
  = (Done tt, request_world env' (storage w) p requestId').
Proof.
  intros H Hs Ht Ho.
  apply request_done_inv in H.
  destruct H as ((Hp & Hpa & Hfit & Hafter & Hopen & H1 & H2) & rid & _ & ->).
  apply request_done_intro; [| assumption].
  unfold request_accepted, request_world. simpl.
  unfold isProvider_at, lastSubmissionTime_at, batchOpen_at, playerData_at in *. simpl.
  rewrite Hs. repeat split; try assumption. lia.
Qed.

(** C4 does not hold of the code: [checkCooldown] measures the window from
    [lastSubmissionTime] alone, and a decryption request only writes
    [lastDecryptionRequestTime], which no guard reads.  Here bob requests
    decryption at time 3000 and again at time 3001, one second into the
    30-second window the claim speaks of, and both requests succeed; a
    submission at time 3001 is accepted as well. *)
Theorem C4_request_does_not_start_cooldown :
  cooldownSeconds Demo.st_submitted = 30 /\
  (exists w1,
     run (requestDecryptionForPlayer (P := Demo.platform)
            (Demo.at_time Demo.bob 3000 5) Demo.bob) Demo.st_submitted = (Done tt, w1) /\
     storage w1 = Demo.st_requested /\
     lastDecryptionRequestTime_at Demo.st_requested Demo.bob = 3000 /\
     fst (run (requestDecryptionForPlayer (P := Demo.platform)
                 (Demo.at_time Demo.bob 3001 6) Demo.bob) Demo.st_requested) = Done tt /\
     fst (run (submitEncryptedResources (P := Demo.platform)
                 (Demo.at_time Demo.bob 3001 0) 333 444) Demo.st_requested) = Done tt).
Proof.
  split; [reflexivity |].
  eexists. split; [vm_compute; reflexivity |].
  vm_compute. repeat split; reflexivity.
Qed.

(** ** The decryption request *)

(** C7: a successful [requestDecryptionForPlayer] stores, under the request
    id the FHE library returned, a context whose [stateHash] is the hash of
    the ABI encoding of the target player's two stored handles (of the
    current batch) and the contract's own address, whose [batchId] is the
    current batch id and whose [processed] flag is false.  The transaction
    consists of the library call, that write, the write of the request
    time, and the [DecryptionRequested] event. *)
Theorem C7_request_stores_context {P : Platform} (env : Env) (st : Storage)
    (_playerAddress : address) (w : World) :
  run (requestDecryptionForPlayer env _playerAddress) st = (Done tt, w) ->
  let data := playerData_at st (currentBatchId st) _playerAddress in
  let handles := [encryptedTotalResources data; encryptedCollectionRate data] in
  let context := mkContext (currentBatchId st)
                   (keccak256 (64 :: this :: 2 :: handles)) false in
  exists requestId,
    oracle_requestId env = Some requestId /\
    decryptionContexts_at (storage w) requestId = context /\
    stateHash context = _hashCiphertexts handles /\
    trace w = [SLib (Lib_requestDecryption handles);
               SWrite (W_decryptionContexts requestId context);
               SWrite (W_lastDecryptionRequestTime (msg_sender env) (block_timestamp env));
               SEmit (DecryptionRequested requestId (currentBatchId st))].
Proof.
  unfold_contract. split_tests; intros H; try discriminate.
  inversion H; subst; clear H. simpl.
  eexists. split; [reflexivity |].
  unfold decryptionContexts_at. simpl. rewrite lookup_insert_eq.
  repeat split; reflexivity.
Qed.

Lemma C7_request_stores_context_witness :
  exists requestId,
    oracle_requestId (Demo.at_time Demo.bob 3000 5) = Some requestId /\
    decryptionContexts_at Demo.st_requested requestId
      = mkContext 1 (Demo.toy_hash [64; 4096; 2; 111; 222]) false.
Proof.
  destruct (C7_request_stores_context (P := Demo.platform)
              (Demo.at_time Demo.bob 3000 5) Demo.st_submitted Demo.bob
              (mkWorld Demo.st_requested
                 (snd (run (requestDecryptionForPlayer (P := Demo.platform)
                              (Demo.at_time Demo.bob 3000 5) Demo.bob)
                           Demo.st_submitted)).(trace)))
    as (rid & Hrid & Hctx & _).
  - vm_compute. reflexivity.
  - exists rid. split; [exact Hrid | exact Hctx].
Defined.

(** ** The callback *)

(** C2, as stated, fails: the code tests the processed flag first, not
    after the hash comparison and the proof check.  For the processed
    request 5, a callback sent by carol (whose stored handles do not hash to
    the stored value) ends in [ReplayAttempt] without any library call; in
    the order the claim gives it would end in [StateMismatch]. *)
Lemma C2_counterexample :
  run (myCallback (P := Demo.platform) (Demo.at_time Demo.carol 4000 0) 5
         Demo.cleartexts_7_3 []) Demo.st_completed
    = (Reverted ReplayAttempt, mkWorld Demo.st_completed []) /\
  fst (run (myCallback_spec_order (P := Demo.platform) (Demo.at_time Demo.carol 4000 0) 5
              Demo.cleartexts_7_3 []) Demo.st_completed)
    = Reverted StateMismatch /\
  run (myCallback (P := Demo.platform) (Demo.at_time Demo.carol 4000 0) 5
         Demo.cleartexts_7_3 []) Demo.st_completed
    <> run (myCallback_spec_order (P := Demo.platform) (Demo.at_time Demo.carol 4000 0) 5
              Demo.cleartexts_7_3 []) Demo.st_completed.
Proof.
  split; [vm_compute; reflexivity |].
  split; [vm_compute; reflexivity |].
  intros H. apply (f_equal fst) in H. vm_compute in H. discriminate H.
Qed.

(** C2, amended: every invocation of [myCallback] performs its steps in
    this order: it reverts with [ReplayAttempt] if the context is already
    processed; otherwise it recomputes the hash over the re-fetched stored
    handles and reverts with [StateMismatch] if that differs from the stored
    hash; then it has the proof verified by the library's signature check;
    then it decodes two 32-bit values from bytes 0..32 and 32..64 of the
    cleartexts; then it marks the context processed; and last it emits
    [DecryptionCompleted].  Nothing is written on any failing path. *)
Theorem C2_callback_order {P : Platform} (env : Env) (st : Storage) (requestId : Z)
    (cleartexts proof : bytes) :
  run (myCallback env requestId cleartexts proof) st
  = callback_outcome env st requestId cleartexts proof.
Proof.
  unfold callback_outcome, decoded. unfold_contract.
  destruct (processed (decryptionContexts_at st requestId)) eqn:Hproc; simpl;
    [reflexivity |].
  destruct (negb _); simpl; [reflexivity |].
  destruct (oracle_signaturesValid env); simpl; [| reflexivity].
  destruct (bytes_slice cleartexts 0 32) as [w0|]; simpl; [| reflexivity].
  destruct (abi_decode_uint32 w0); simpl; [| reflexivity].
  destruct (bytes_slice cleartexts 32 64) as [w1|]; simpl; [| reflexivity].
  destruct (abi_decode_uint32 w1); simpl; [| reflexivity].
  unfold decryptionContexts_at. simpl. rewrite lookup_insert_eq. reflexivity.
Qed.

(** A processed context is only ever replaced by a decryption request that
    is given the same request id again. *)
Lemma processed_context_kept {P : Platform} env c st requestId :
  processed (decryptionContexts_at st requestId) = true ->
  ~ hands_out requestId (env, c) ->
  decryptionContexts_at (transact env c st) requestId
  = decryptionContexts_at st requestId.
Proof.
  intros Hproc Hfresh. unfold hands_out in Hfresh. simpl in Hfresh.
  destruct c; unfold transact; unfold_contract.
  1-8: split_tests; reflexivity.
  - split_tests; try reflexivity.
    unfold decryptionContexts_at. simpl.
    rewrite lookup_insert_ne by congruence. reflexivity.
  - destruct (decide (requestId0 = requestId)) as [-> | Hne].
    + rewrite Hproc. reflexivity.
    + split_tests; try reflexivity.
      unfold decryptionContexts_at. simpl.
      rewrite lookup_insert_ne by congruence. reflexivity.
Qed.

Lemma processed_context_kept_all {P : Platform} txs : forall st requestId,
  processed (decryptionContexts_at st requestId) = true ->
  Forall (fun tx => ~ hands_out requestId tx) txs ->
  decryptionContexts_at (transact_all txs st) requestId
  = decryptionContexts_at st requestId.
Proof.
  induction txs as [| [env c] txs IH]; intros st requestId Hproc Hall; simpl.
  - reflexivity.
  - inversion Hall as [| ? ? Hhead Htail]; subst.
    rewrite IH; [| | assumption].
    + now apply processed_context_kept.
    + rewrite processed_context_kept; assumption.
Qed.

Lemma callback_replay {P : Platform} env st requestId cleartexts proof :
  processed (decryptionContexts_at st requestId) = true ->
  run (myCallback env requestId cleartexts proof) st
  = (Reverted ReplayAttempt, mkWorld st []).
Proof. intros H. unfold_contract. rewrite H. reflexivity. Qed.

(** C1: the processed flag of a request id goes from false to true at most
    once.  A [myCallback] call that succeeds finds the flag false and leaves
    it true; from then on every [myCallback] call for the same request id,
    by any caller with any cleartexts and proof, reverts with
    [ReplayAttempt] and writes nothing.  This stays so after any further
    transactions, as long as the FHE library does not hand out the same
    request id to a later decryption request: the context is never changed
    again. *)
Theorem C1_context_consumed_once {P : Platform} (env : Env) (st : Storage)
    (requestId : Z) (cleartexts proof : bytes) (w : World) :
  run (myCallback env requestId cleartexts proof) st = (Done tt, w) ->
  processed (decryptionContexts_at st requestId) = false /\
  processed (decryptionContexts_at (storage w) requestId) = true /\
  forall txs,
    Forall (fun tx => ~ hands_out requestId tx) txs ->
    let st' := transact_all txs (storage w) in
    decryptionContexts_at st' requestId = decryptionContexts_at (storage w) requestId /\
    forall env' cleartexts' proof',
      run (myCallback env' requestId cleartexts' proof') st'
        = (Reverted ReplayAttempt, mkWorld st' []) /\
      transact env' (Call_myCallback requestId cleartexts' proof') st' = st'.
Proof.
  intros Hrun.
  assert (Hbefore : processed (decryptionContexts_at st requestId) = false).
  { destruct (processed (decryptionContexts_at st requestId)) eqn:Hp; [| reflexivity].
    rewrite callback_replay in Hrun by assumption. discriminate. }
  assert (Hafter : processed (decryptionContexts_at (storage w) requestId) = true).
  { revert Hrun. unfold_contract. rewrite Hbefore.
    split_tests; intros H; try discriminate.
    inversion H; subst; clear H. simpl.
    unfold decryptionContexts_at at 1. simpl. rewrite lookup_insert_eq. reflexivity. }
  split; [assumption |]. split; [assumption |].
  intros txs Hfresh st'. subst st'.
  pose proof (processed_context_kept_all txs (storage w) requestId Hafter Hfresh) as Hkept.
  split; [assumption |].
  intros env' cleartexts' proof'.
  assert (Hreplay : run (myCallback env' requestId cleartexts' proof')
                        (transact_all txs (storage w))
                    = (Reverted ReplayAttempt, mkWorld (transact_all txs (storage w)) [])).
  { apply callback_replay. rewrite Hkept. assumption. }
  split; [assumption |].
  unfold transact, dispatch. rewrite Hreplay. reflexivity.
Qed.

Lemma C1_context_consumed_once_witness :
  processed (decryptionContexts_at Demo.st_requested 5) = false /\
  processed (decryptionContexts_at Demo.st_completed 5) = true /\
  run (myCallback (P := Demo.platform) (Demo.at_time Demo.bob 3200 0) 5
         Demo.cleartexts_7_3 [])
      (transact_all (P := Demo.platform)
         [(Demo.at_time Demo.bob 3150 6, Call_requestDecryptionForPlayer Demo.bob)]
         Demo.st_completed)
    = (Reverted ReplayAttempt,
       mkWorld (transact_all (P := Demo.platform)
                  [(Demo.at_time Demo.bob 3150 6, Call_requestDecryptionForPlayer Demo.bob)]
                  Demo.st_completed) []).
Proof.
  destruct (C1_context_consumed_once (P := Demo.platform)
              (Demo.at_time Demo.bob 3100 0) Demo.st_requested 5 Demo.cleartexts_7_3 []
              (snd (run (myCallback (P := Demo.platform) (Demo.at_time Demo.bob 3100 0) 5
                           Demo.cleartexts_7_3 []) Demo.st_requested)))
    as (Hbefore & Hafter & Hlater).
  - vm_compute. reflexivity.
  - split; [exact Hbefore |]. split; [exact Hafter |].
    apply (Hlater [(Demo.at_time Demo.bob 3150 6,
                    Call_requestDecryptionForPlayer Demo.bob)]).
    repeat constructor. unfold hands_out. simpl. discriminate.
Defined.

(** ** Failures write nothing *)

(** In every function all checks come before the first write. *)
Lemma revert_before_write {P : Platform} env c st e w :
  run (dispatch env c) st = (Reverted e, w) ->
  storage w = st /\ forall x, ~ In (SWrite x) (trace w).
Proof.
  destruct c; unfold_contract; split_tests; intros H; try discriminate;
    inversion H; subst; clear H; simpl;
    (split; [reflexivity | intros x Hin; simpl in Hin; intuition discriminate]).
Qed.

(** C8: a call that reverts leaves the storage exactly as it was.  This
    holds for whatever failure [e] the call ends in: each of the named ones
    ([NotOwner], [NotProvider], [Paused], [CooldownActive],
    [InvalidArgument], [BatchNotOpen], [ReplayAttempt], [StateMismatch],
    [InvalidProof]) and the unnamed ones too (an arithmetic panic, a revert
    inside the FHE library, a decoding failure).  At the point of the revert the function body has made no
    storage write at all, so the storage it reached is the storage it
    started from, and the transaction as a whole returns that storage. *)
Theorem C8_failures_are_atomic {P : Platform} (env : Env) (c : Call) (st : Storage)
    (e : Error) (w : World) :
  run (dispatch env c) st = (Reverted e, w) ->
  storage w = st /\
  (forall x, ~ In (SWrite x) (trace w)) /\
  transact env c st = st.
Proof.
  intros H. destruct (revert_before_write env c st e w H) as [Hst Htr].
  repeat split; try assumption.
  unfold transact. rewrite H. reflexivity.
Qed.

Lemma C8_failures_are_atomic_witness :
  transact (P := Demo.platform) (Demo.at_time Demo.carol 4000 0)
    (Call_myCallback 5 Demo.cleartexts_7_3 []) Demo.st_requested = Demo.st_requested.
Proof.
  apply (C8_failures_are_atomic (P := Demo.platform) (Demo.at_time Demo.carol 4000 0)
           (Call_myCallback 5 Demo.cleartexts_7_3 []) Demo.st_requested StateMismatch
           (mkWorld Demo.st_requested [])).
  vm_compute. reflexivity.
Defined.

(** [InvalidProof] and [AlreadyInitialized] are declared and never raised:
    a rejected proof surfaces as the revert of the library call. *)
Lemma declared_but_never_raised {P : Platform} env c st :
  fst (run (dispatch env c) st) <> Reverted InvalidProof /\
  fst (run (dispatch env c) st) <> Reverted AlreadyInitialized.
Proof.
  split; destruct c; unfold_contract; split_tests; discriminate.
Qed.

(** ** Batches *)

Section Batches.
Context {P : Platform}.

(** The current batch id never decreases. *)
Lemma currentBatchId_mono env c st :
  currentBatchId st <= currentBatchId (transact env c st).
Proof.
  destruct c; unfold transact; unfold_contract; split_tests; try lia.
Qed.

(** No transaction opens a batch id at or below the current one. *)
Lemma closed_stays_closed env c st i :
  i <= currentBatchId st ->
  batchOpen_at st i = false ->
  batchOpen_at (transact env c st) i = false.
Proof.
  intros Hle Hclosed.
  destruct c; unfold transact; unfold_contract; split_tests; try assumption;
    unfold batchOpen_at in *; simpl.
  - rewrite lookup_insert_ne by lia. assumption.
  - rewrite lookup_insert. case_decide; [reflexivity | assumption].
Qed.

Lemma closed_stays_closed_all txs : forall st i,
  i <= currentBatchId st ->
  batchOpen_at st i = false ->
  batchOpen_at (transact_all txs st) i = false.
Proof.
  induction txs as [| [env c] txs IH]; intros st i Hle Hclosed; simpl.
  - assumption.
  - apply IH.
    + pose proof (currentBatchId_mono env c st). lia.
    + now apply closed_stays_closed.
Qed.

(** [closeCurrentBatch] touches the flag of the current batch id only, and
    never sets a flag. *)
Lemma close_only_clears_current env st i :
  (i <> currentBatchId st ->
     batchOpen_at (transact env Call_closeCurrentBatch st) i = batchOpen_at st i) /\
  (batchOpen_at (transact env Call_closeCurrentBatch st) i = true ->
     batchOpen_at st i = true) /\
  currentBatchId (transact env Call_closeCurrentBatch st) = currentBatchId st.
Proof.
  unfold transact; unfold_contract; split_tests; repeat split; intros;
    try assumption; try reflexivity; unfold batchOpen_at in *; simpl in *.
  - now rewrite lookup_insert_ne by congruence.
  - rewrite lookup_insert in H. case_decide; [discriminate | assumption].
Qed.

(** [openNewBatch] touches the flag of the incremented batch id only, and
    that id becomes the current one. *)
Lemma open_only_sets_next env st i :
  (i <> currentBatchId st + 1 ->
     batchOpen_at (transact env Call_openNewBatch st) i = batchOpen_at st i) /\
  (currentBatchId (transact env Call_openNewBatch st) = currentBatchId st \/
   currentBatchId (transact env Call_openNewBatch st) = currentBatchId st + 1 /\
   batchOpen_at (transact env Call_openNewBatch st) (currentBatchId st + 1) = true).
Proof.
  unfold transact; unfold_contract; split_tests; split; intros;
    try reflexivity; try (left; reflexivity); unfold batchOpen_at in *; simpl in *.
  - now rewrite lookup_insert_ne by congruence.
  - right. split; [reflexivity |]. now rewrite lookup_insert_eq.
Qed.

(** Batch ids above the current one have never been opened. *)
Lemma future_batches_closed st :
  reachable st -> forall i, currentBatchId st < i -> batchOpen_at st i = false.
Proof.
  induction 1 as [env | env c st Hreach IH]; intros i Hi.
  - unfold deploy, constructor in *. unfold_monad. simpl in *.
    unfold batchOpen_at. simpl. rewrite lookup_insert_ne by lia. reflexivity.
  - revert Hi.
    destruct c; unfold transact; unfold_contract; split_tests; intros Hi;
      try (apply IH; assumption); unfold batchOpen_at in *; simpl in *.
    + rewrite lookup_insert_ne by lia. apply IH. lia.
    + rewrite lookup_insert_ne by lia. apply IH. lia.
Qed.

End Batches.

(** C9: a closed batch id never becomes open again.  [closeCurrentBatch]
    changes the flag of the current batch id only and never sets a flag;
    [openNewBatch] changes the flag of the incremented id only; through any
    sequence of transactions a batch id at or below the current one whose
    flag is false keeps a false flag; and in every reachable storage the
    flag of every id above the current batch id is false, so the id that
    [openNewBatch] opens has never been open before. *)
Theorem C9_closed_batch_never_reopens {P : Platform} :
  (forall env st i,
     (i <> currentBatchId st ->
        batchOpen_at (transact env Call_closeCurrentBatch st) i = batchOpen_at st i) /\
     (batchOpen_at (transact env Call_closeCurrentBatch st) i = true ->
        batchOpen_at st i = true) /\
     currentBatchId (transact env Call_closeCurrentBatch st) = currentBatchId st) /\
  (forall env st i,
     (i <> currentBatchId st + 1 ->
        batchOpen_at (transact env Call_openNewBatch st) i = batchOpen_at st i) /\
     (currentBatchId (transact env Call_openNewBatch st) = currentBatchId st \/
      currentBatchId (transact env Call_openNewBatch st) = currentBatchId st + 1 /\
      batchOpen_at (transact env Call_openNewBatch st) (currentBatchId st + 1) = true)) /\
  (forall txs st i,
     i <= currentBatchId st ->
     batchOpen_at st i = false ->
     batchOpen_at (transact_all txs st) i = false) /\
  (forall st, reachable st ->
     forall i, currentBatchId st < i -> batchOpen_at st i = false).
Proof.
  split; [exact close_only_clears_current |].
  split; [exact open_only_sets_next |].
  split; [exact closed_stays_closed_all |].
  exact future_batches_closed.
Qed.

Lemma C9_closed_batch_never_reopens_witness :
  batchOpen_at
    (transact_all (P := Demo.platform)
       [(Demo.at_time Demo.alice 2600 0, Call_openNewBatch);
        (Demo.at_time Demo.bob 2700 0, Call_submitEncryptedResources 333 444);
        (Demo.at_time Demo.alice 2800 0, Call_closeCurrentBatch);
        (Demo.at_time Demo.alice 2900 0, Call_openNewBatch)]
       Demo.st_batch_closed) 1 = false /\
  batchOpen_at (deploy (Demo.at_time Demo.alice 1000 0)) 2 = false.
Proof.
  split.
  - apply (proj1 (proj2 (proj2 (C9_closed_batch_never_reopens (P := Demo.platform))))).
    + vm_compute. discriminate.
    + reflexivity.
  - apply (proj2 (proj2 (proj2 (C9_closed_batch_never_reopens (P := Demo.platform))))
             (deploy (Demo.at_time Demo.alice 1000 0))).
    + apply reachable_deploy.
    + vm_compute. reflexivity.
Defined.

(** ** Ownership and administration *)

(** No function assigns [owner] after the constructor: through any
    sequence of transactions the owner stays the deployer. *)
Theorem owner_never_changes {P : Platform} :
  (forall env c st, owner (transact env c st) = owner st) /\
  (forall txs st, owner (transact_all txs st) = owner st) /\
  (forall env, owner (deploy env) = msg_sender env).
Proof.
  assert (Hone : forall env c st, owner (transact env c st) = owner st).
  { intros env c st.
    destruct c; unfold transact; unfold_contract; split_tests; reflexivity. }
  split; [exact Hone |]. split.
  - induction txs as [| [env c] txs IH]; intros st; simpl; [reflexivity |].
    rewrite IH. apply Hone.
  - reflexivity.
Qed.

(** A transaction whose sender is not the owner cannot administer: each
    of the seven owner functions reverts with [NotOwner] before anything
    else happens, and whatever function the sender calls, the allow-list,
    the cooldown length, the pause flag, the current batch id and the batch
    flags stay as they were. *)
Theorem non_owner_cannot_administer {P : Platform} (env : Env) (c : Call)
    (st : Storage) :
  msg_sender env <> owner st ->
  (owner_call c = true ->
     run (dispatch env c) st = (Reverted NotOwner, mkWorld st [])) /\
  admin_state (transact env c st) = admin_state st.
Proof.
  intros Hne. apply Z.eqb_neq in Hne.
  split.
  - intros Hc. destruct c; try discriminate Hc; unfold_contract;
      rewrite Hne; reflexivity.
  - destruct c; unfold transact, admin_state; unfold_contract; rewrite ?Hne; simpl;
      split_tests; congruence.
Qed.

Lemma non_owner_cannot_administer_witness :
  run (dispatch (P := Demo.platform) (Demo.at_time Demo.bob 2600 0) Call_pause)
      Demo.st_submitted
    = (Reverted NotOwner, mkWorld Demo.st_submitted []) /\
  admin_state (transact (P := Demo.platform) (Demo.at_time Demo.bob 2600 0)
                 (Call_submitEncryptedResources 333 444) Demo.st_submitted)
    = admin_state Demo.st_submitted.
Proof.
  split.
  - apply (proj1 (non_owner_cannot_administer (P := Demo.platform)
                    (Demo.at_time Demo.bob 2600 0) Call_pause Demo.st_submitted
                    ltac:(vm_compute; discriminate))).
    reflexivity.
  - apply (proj2 (non_owner_cannot_administer (P := Demo.platform)
                    (Demo.at_time Demo.bob 2600 0)
                    (Call_submitEncryptedResources 333 444) Demo.st_submitted
                    ltac:(vm_compute; discriminate))).
Defined.

(** Right after deployment the deployer is the owner, the cooldown is 30
    seconds, batch 1 is current and open, the contract is not paused, and
    the allow-list is empty: every caller, the owner included, gets
    [NotProvider] from both provider operations until a provider is added. *)
Theorem nobody_is_provider_after_deploy {P : Platform} (deployer caller : Env) :
  let st := deploy deployer in
  owner st = msg_sender deployer /\
  cooldownSeconds st = 30 /\
  currentBatchId st = 1 /\
  batchOpen_at st 1 = true /\
  paused st = false /\
  (forall a, isProvider_at st a = false) /\
  (forall t r, run (submitEncryptedResources caller t r) st
               = (Reverted NotProvider, mkWorld st [])) /\
  (forall p, run (requestDecryptionForPlayer caller p) st
             = (Reverted NotProvider, mkWorld st [])).
Proof.
  simpl. repeat split; intros; reflexivity.
Qed.

(** The zero address is never on the allow-list. *)
Theorem zero_address_never_provider {P : Platform} (st : Storage) :
  reachable st -> isProvider_at st 0 = false.
Proof.
  induction 1 as [env | env c st Hreach IH].
  - reflexivity.
  - destruct c; unfold transact; unfold_contract; split_tests; try assumption;
      unfold isProvider_at in *; simpl.
    + rewrite lookup_insert_ne; [assumption |].
      intros ->. discriminate.
    + rewrite lookup_delete. case_decide; [reflexivity | assumption].
Qed.

Lemma zero_address_never_provider_witness : isProvider_at Demo.st_completed 0 = false.
Proof.
  apply (zero_address_never_provider (P := Demo.platform)).
  unfold Demo.st_completed, Demo.st_requested, Demo.st_submitted, Demo.st_ready.
  simpl. repeat apply reachable_transact. apply reachable_deploy.
Defined.

(** Allow-list management by the owner.  Adding the zero address and
    removing an address that is not on the list both revert with
    [InvalidArgument]; adding any other address puts it on the list (also
    when it already is there), removing a listed address takes it off, and
    neither touches the entry of another address. *)
Theorem allow_list_management {P : Platform} (env : Env) (st : Storage) (p : address) :
  msg_sender env = owner st ->
  (p = 0 -> run (addProvider env p) st = (Reverted InvalidArgument, mkWorld st [])) /\
  (p <> 0 ->
     forall q, isProvider_at (transact env (Call_addProvider p) st) q
               = if decide (q = p) then true else isProvider_at st q) /\
  (isProvider_at st p = false ->
     run (removeProvider env p) st = (Reverted InvalidArgument, mkWorld st [])) /\
  (isProvider_at st p = true ->
     forall q, isProvider_at (transact env (Call_removeProvider p) st) q
               = if decide (q = p) then false else isProvider_at st q).
Proof.
  intros Hown. apply Z.eqb_eq in Hown.
  repeat split.
  - intros ->. unfold_contract. rewrite Hown. reflexivity.
  - intros Hp q. apply Z.eqb_neq in Hp.
    unfold transact. unfold_contract. rewrite Hown. simpl. rewrite Hp. simpl.
    unfold isProvider_at. simpl. rewrite lookup_insert.
    repeat case_decide; simpl; congruence.
  - intros Hp. unfold_contract. rewrite Hown. simpl. rewrite Hp. reflexivity.
  - intros Hp q. unfold transact. unfold_contract. rewrite Hown. simpl.
    rewrite Hp. simpl. unfold isProvider_at. simpl. rewrite lookup_delete.
    repeat case_decide; simpl; congruence.
Qed.

Lemma allow_list_management_witness :
  isProvider_at (transact (P := Demo.platform) (Demo.at_time Demo.alice 2600 0)
                   (Call_addProvider Demo.carol) Demo.st_submitted) Demo.carol = true /\
  isProvider_at (transact (P := Demo.platform) (Demo.at_time Demo.alice 2600 0)
                   (Call_removeProvider Demo.bob) Demo.st_submitted) Demo.bob = false /\
  run (removeProvider (Demo.at_time Demo.alice 2600 0) Demo.carol)
      Demo.st_submitted
    = (Reverted InvalidArgument, mkWorld Demo.st_submitted []).
Proof.
  pose proof (allow_list_management (P := Demo.platform) (Demo.at_time Demo.alice 2600 0)
                Demo.st_submitted Demo.carol eq_refl) as (_ & Hadd & Hrem & _).
  pose proof (allow_list_management (P := Demo.platform) (Demo.at_time Demo.alice 2600 0)
                Demo.st_submitted Demo.bob eq_refl) as (_ & _ & _ & Hrem').
  split; [| split].
  - rewrite Hadd by (vm_compute; discriminate). reflexivity.
  - rewrite Hrem' by reflexivity. reflexivity.
  - apply Hrem. reflexivity.
Defined.

(** Removing an address that was added undoes the addition: when [p] was
    not on the allow-list before, the list reads after [addProvider p]
    followed by [removeProvider p] as it read before, for every address. *)
Theorem remove_undoes_add {P : Platform} (env env' : Env) (st : Storage) (p q : address) :
  msg_sender env = owner st ->
  msg_sender env' = owner st ->
  p <> 0 ->
  isProvider_at st p = false ->
  isProvider_at (transact env' (Call_removeProvider p)
                   (transact env (Call_addProvider p) st)) q
  = isProvider_at st q.
Proof.
  intros Hown Hown' Hp Hnot.
  apply Z.eqb_eq in Hown, Hown'. apply Z.eqb_neq in Hp.
  unfold transact. unfold_contract. rewrite Hown. simpl. rewrite Hp. simpl.
  rewrite Hown'. simpl. unfold isProvider_at in *. simpl.
  rewrite lookup_insert_eq. simpl.
  rewrite lookup_delete, lookup_insert.
  repeat case_decide; subst; simpl; congruence.
Qed.

Lemma remove_undoes_add_witness :
  isProvider_at (transact (P := Demo.platform) (Demo.at_time Demo.alice 2700 0)
                   (Call_removeProvider Demo.carol)
                   (transact (P := Demo.platform) (Demo.at_time Demo.alice 2600 0)
                      (Call_addProvider Demo.carol) Demo.st_submitted)) Demo.bob
  = isProvider_at Demo.st_submitted Demo.bob.
Proof.
  apply (remove_undoes_add (P := Demo.platform) (Demo.at_time Demo.alice 2600 0)
           (Demo.at_time Demo.alice 2700 0) Demo.st_submitted Demo.carol Demo.bob
           eq_refl eq_refl ltac:(vm_compute; discriminate) eq_refl).
Defined.

(** The pause switch.  For the owner: [pause] on a paused contract reverts
    with [Paused], [unpause] on a contract that is not paused reverts with
    [InvalidArgument], and [pause] followed by [unpause] gives back the
    storage the contract started from. *)
Theorem pause_unpause_round_trip {P : Platform} (env env' : Env) (st : Storage) :
  msg_sender env = owner st ->
  msg_sender env' = owner st ->
  (paused st = true ->
     run (pause env) st = (Reverted Paused, mkWorld st []) /\
     paused (transact env Call_unpause st) = false) /\
  (paused st = false ->
     run (unpause env) st = (Reverted InvalidArgument, mkWorld st []) /\
     paused (transact env Call_pause st) = true /\
     transact env' Call_unpause (transact env Call_pause st) = st).
Proof.
  intros Hown Hown'. apply Z.eqb_eq in Hown, Hown'.
  split; intros Hp.
  - split; unfold transact; unfold_contract; rewrite Hown; simpl; rewrite Hp; reflexivity.
  - repeat split; unfold transact; unfold_contract; rewrite Hown; simpl; rewrite Hp;
      try reflexivity.
    simpl. rewrite Hown'. simpl.
    destruct st; simpl in *; subst; reflexivity.
Qed.

Lemma pause_unpause_round_trip_witness :
  transact (P := Demo.platform) (Demo.at_time Demo.alice 2700 0) Call_unpause
    Demo.st_paused = Demo.st_submitted.
Proof.
  apply (proj2 (pause_unpause_round_trip (P := Demo.platform)
                  (Demo.at_time Demo.alice 2500 0) (Demo.at_time Demo.alice 2700 0)
                  Demo.st_submitted eq_refl eq_refl)).
  reflexivity.
Defined.

(** ** Batches and player entries *)

(** [openNewBatch] by the owner: it increments the batch id with a checked
    addition, so at the largest 256-bit id it panics with code 0x11 and
    writes nothing; below that it succeeds, paused or not, makes the next
    id current and open, and leaves the flag of the batch that was current
    as it is (it does not close it). *)
Theorem openNewBatch_behaviour {P : Platform} (env : Env) (st : Storage) :
  msg_sender env = owner st ->
  (uint256_max <= currentBatchId st ->
     run (openNewBatch env) st = (Reverted (Panic 17), mkWorld st [])) /\
  (currentBatchId st < uint256_max ->
     exists w,
       run (openNewBatch env) st = (Done tt, w) /\
       currentBatchId (storage w) = currentBatchId st + 1 /\
       batchOpen_at (storage w) (currentBatchId st + 1) = true /\
       batchOpen_at (storage w) (currentBatchId st) = batchOpen_at st (currentBatchId st) /\
       trace w = [SWrite (W_currentBatchId (currentBatchId st + 1));
                  SWrite (W_batchOpen (currentBatchId st + 1) true);
                  SEmit (BatchOpened (currentBatchId st + 1))]).
Proof.
  intros Hown. apply Z.eqb_eq in Hown.
  split; intros Hcur; unfold_contract; rewrite Hown; simpl.
  - destruct (Z.leb_spec (currentBatchId st + 1) uint256_max); [lia | reflexivity].
  - destruct (Z.leb_spec (currentBatchId st + 1) uint256_max); [| lia]. simpl.
    eexists. split; [reflexivity |]. simpl.
    unfold batchOpen_at. simpl.
    rewrite lookup_insert_eq, lookup_insert_ne by lia.
    repeat split; reflexivity.
Qed.

Lemma openNewBatch_behaviour_witness :
  exists w,
    run (openNewBatch (Demo.at_time Demo.alice 2600 0)) Demo.st_batch_closed = (Done tt, w) /\
    currentBatchId (storage w) = 2 /\
    batchOpen_at (storage w) 2 = true /\
    batchOpen_at (storage w) 1 = false.
Proof.
  destruct (proj2 (openNewBatch_behaviour (P := Demo.platform)
                     (Demo.at_time Demo.alice 2600 0) Demo.st_batch_closed eq_refl)
              ltac:(vm_compute; reflexivity))
    as (w & Hrun & Hcur & Hnext & Hold & _).
  exists w. repeat split; assumption.
Defined.

(** What a successful submission leaves. *)
Lemma submit_done_inv {P : Platform} env st t r w :
  run (submitEncryptedResources env t r) st = (Done tt, w) ->
  (isProvider_at st (msg_sender env) = true /\
   paused st = false /\
   lastSubmissionTime_at st (msg_sender env) + cooldownSeconds st <= uint256_max /\
   lastSubmissionTime_at st (msg_sender env) + cooldownSeconds st <= block_timestamp env /\
   batchOpen_at st (currentBatchId st) = true /\
   isInitialized t = true /\ isInitialized r = true) /\
  storage w
  = apply_write (W_lastSubmissionTime (msg_sender env) (block_timestamp env))
      (apply_write (W_playerData (currentBatchId st) (msg_sender env) (mkPlayerData t r))
         st).
Proof.
  unfold_contract. split_tests; intros H; try discriminate.
  inversion H; subst; clear H.
  repeat match goal with
         | H : negb _ = false |- _ => apply negb_false_iff in H
         | H : (_ <=? _) = true |- _ => apply Z.leb_le in H
         | H : (_ <? _) = false |- _ => apply Z.ltb_ge in H
         end.
  repeat split; try assumption.
  simpl. congruence.
Qed.

(** A transaction only ever writes the batch entry and the two recorded
    times of its own sender: for every other address they stay as they
    were, whatever function is called and whoever calls it, the owner
    included. *)
Theorem only_the_sender_is_written {P : Platform} (env : Env) (c : Call) (st : Storage)
    (a : address) :
  a <> msg_sender env ->
  (forall b, playerData_at (transact env c st) b a = playerData_at st b a) /\
  lastSubmissionTime_at (transact env c st) a = lastSubmissionTime_at st a /\
  lastDecryptionRequestTime_at (transact env c st) a = lastDecryptionRequestTime_at st a.
Proof.
  intros Hne.
  destruct c; unfold transact; unfold_contract; split_tests;
    repeat split; intros; try reflexivity;
    unfold playerData_at, lastSubmissionTime_at, lastDecryptionRequestTime_at; simpl;
    rewrite lookup_insert_ne by congruence; reflexivity.
Qed.

Lemma only_the_sender_is_written_witness :
  playerData_at (transact (P := Demo.platform) (Demo.at_time Demo.alice 2600 0)
                   (Call_submitEncryptedResources 333 444) Demo.st_submitted) 1 Demo.bob
  = mkPlayerData 111 222.
Proof.
  rewrite (proj1 (only_the_sender_is_written (P := Demo.platform)
                    (Demo.at_time Demo.alice 2600 0)
                    (Call_submitEncryptedResources 333 444) Demo.st_submitted Demo.bob
                    ltac:(vm_compute; discriminate))).
  reflexivity.
Defined.

(** Entries are written under the current batch id only, and that id never
    goes down: through any sequence of transactions the entries of every
    batch below the current one stay exactly as they are. *)
Theorem past_batches_are_frozen {P : Platform} (txs : list (Env * Call)) :
  forall (st : Storage) (b : Z) (a : address),
    b < currentBatchId st ->
    playerData_at (transact_all txs st) b a = playerData_at st b a.
Proof.
  induction txs as [| [env c] txs IH]; intros st b a Hb; simpl; [reflexivity |].
  rewrite IH by (pose proof (currentBatchId_mono env c st); lia).
  destruct c; unfold transact; unfold_contract; split_tests; try reflexivity.
  unfold playerData_at. simpl.
  rewrite lookup_insert_ne; [reflexivity |].
  intros Heq. inversion Heq. lia.
Qed.

Lemma past_batches_are_frozen_witness :
  playerData_at
    (transact_all (P := Demo.platform)
       [(Demo.at_time Demo.bob 2700 0, Call_submitEncryptedResources 333 444)]
       (transact (P := Demo.platform) (Demo.at_time Demo.alice 2600 0) Call_openNewBatch
          Demo.st_submitted)) 1 Demo.bob
  = mkPlayerData 111 222.
Proof.
  rewrite (past_batches_are_frozen (P := Demo.platform)
             [(Demo.at_time Demo.bob 2700 0, Call_submitEncryptedResources 333 444)]
             (transact (P := Demo.platform) (Demo.at_time Demo.alice 2600 0)
                Call_openNewBatch Demo.st_submitted) 1 Demo.bob
             ltac:(vm_compute; reflexivity)).
  reflexivity.
Defined.

(** The invariant of the reachable storages, proved by induction on the
    transactions. *)
Lemma reachable_invariant {P : Platform} (st : Storage) :
  reachable st ->
  1 <= currentBatchId st <= uint256_max /\
  (forall i, batchOpen_at st i = true -> 1 <= i <= currentBatchId st) /\
  (forall b a d, playerData st !! (b, a) = Some d ->
     1 <= b <= currentBatchId st /\
     isInitialized (encryptedTotalResources d) = true /\
     isInitialized (encryptedCollectionRate d) = true).
Proof.
  induction 1 as [env | env c st Hreach (Hcur & Hopen & Hdata)].
  - split; [vm_compute; split; discriminate |]. split.
    + intros i. unfold batchOpen_at. simpl. rewrite lookup_insert.
      case_decide; [intros _; subst; simpl; lia | discriminate].
    + intros b a d. simpl. rewrite lookup_empty. discriminate.
  - destruct c; unfold transact; unfold_contract; split_tests;
      try (split; [assumption | split; assumption]).
    + (* openNewBatch *)
      apply Z.leb_le in Heqb0. split; [simpl; lia |]. split.
      * intros i. unfold batchOpen_at in *. simpl. rewrite lookup_insert.
        case_decide; [intros _; subst; lia |].
        intros Hi. specialize (Hopen i Hi). lia.
      * intros b a d Hd. simpl in Hd. specialize (Hdata b a d Hd). simpl. intuition lia.
    + (* closeCurrentBatch *)
      split; [assumption |]. split; [| assumption].
      intros i. unfold batchOpen_at in *. simpl. rewrite lookup_insert.
      case_decide; [discriminate | apply Hopen].
    + (* submitEncryptedResources *)
      split; [assumption |]. split; [assumption |].
      intros b a d. simpl. rewrite lookup_insert.
      case_decide as Hkey; [| apply Hdata].
      intros Hd. inversion Hd; subst d; clear Hd. inversion Hkey; subst b a. simpl.
      apply negb_false_iff in Heqb4, Heqb5. repeat split; try assumption; lia.
Qed.

(** In every reachable storage the current batch id lies between 1 and the
    largest 256-bit value, every batch id whose flag is set lies between 1
    and the current id, and every stored player entry belongs to such a
    batch and holds two initialised handles. *)
Theorem reachable_batches_and_entries {P : Platform} (st : Storage) :
  reachable st ->
  1 <= currentBatchId st <= uint256_max /\
  (forall i, batchOpen_at st i = true -> 1 <= i <= currentBatchId st) /\
  (forall b a d, playerData st !! (b, a) = Some d ->
     1 <= b <= currentBatchId st /\
     isInitialized (encryptedTotalResources d) = true /\
     isInitialized (encryptedCollectionRate d) = true).
Proof. exact (reachable_invariant st). Qed.

Lemma reachable_batches_and_entries_witness :
  1 <= currentBatchId Demo.st_completed <= uint256_max.
Proof.
  apply (reachable_batches_and_entries (P := Demo.platform)).
  unfold Demo.st_completed, Demo.st_requested, Demo.st_submitted, Demo.st_ready.
  simpl. repeat apply reachable_transact. apply reachable_deploy.
Defined.

(** With the flag of the current batch cleared, the body of each of the
    three functions that test it stops at that test. *)
Lemma close_when_closed env st :
  msg_sender env = owner st ->
  batchOpen_at st (currentBatchId st) = false ->
  run (closeCurrentBatch env) st = (Reverted InvalidArgument, mkWorld st []).
Proof.
  intros Hown Hclosed. apply Z.eqb_eq in Hown.
  unfold_contract. rewrite Hown. simpl. rewrite Hclosed. reflexivity.
Qed.

Lemma submit_when_closed {P : Platform} env st t r :
  isProvider_at st (msg_sender env) = true ->
  paused st = false ->
  lastSubmissionTime_at st (msg_sender env) + cooldownSeconds st <= uint256_max ->
  lastSubmissionTime_at st (msg_sender env) + cooldownSeconds st <= block_timestamp env ->
  batchOpen_at st (currentBatchId st) = false ->
  run (submitEncryptedResources env t r) st = (Reverted BatchNotOpen, mkWorld st []).
Proof.
  intros Hprov Hpa Hfit Hafter Hclosed. unfold submitEncryptedResources.
  rewrite onlyProvider_pass, whenNotPaused_pass, checkCooldown_pass by assumption.
  unfold_monad. simpl. rewrite Hclosed. reflexivity.
Qed.

Lemma request_when_closed {P : Platform} env st p :
  isProvider_at st (msg_sender env) = true ->
  paused st = false ->
  lastSubmissionTime_at st (msg_sender env) + cooldownSeconds st <= uint256_max ->
  lastSubmissionTime_at st (msg_sender env) + cooldownSeconds st <= block_timestamp env ->
  batchOpen_at st (currentBatchId st) = false ->
  run (requestDecryptionForPlayer env p) st = (Reverted BatchNotOpen, mkWorld st []).
Proof.
  intros Hprov Hpa Hfit Hafter Hclosed. unfold requestDecryptionForPlayer.
  rewrite onlyProvider_pass, whenNotPaused_pass, checkCooldown_pass by assumption.
  unfold_monad. simpl. rewrite Hclosed. reflexivity.
Qed.

(** Closing the current batch.  A successful [closeCurrentBatch] clears the
    flag of the current id and emits [BatchClosed]; in the storage it
    leaves, a second [closeCurrentBatch] by the owner reverts with
    [InvalidArgument], and a submission or decryption request that passes
    the allow-list, pause and cooldown guards reverts with [BatchNotOpen]. *)
Theorem closed_batch_accepts_nothing {P : Platform} (env0 : Env) (st : Storage)
    (w : World) :
  run (closeCurrentBatch env0) st = (Done tt, w) ->
  batchOpen_at (storage w) (currentBatchId st) = false /\
  trace w = [SWrite (W_batchOpen (currentBatchId st) false);
             SEmit (BatchClosed (currentBatchId st))] /\
  (forall env, msg_sender env = owner st ->
     run (closeCurrentBatch env) (storage w)
     = (Reverted InvalidArgument, mkWorld (storage w) [])) /\
  (forall env,
     isProvider_at st (msg_sender env) = true ->
     paused st = false ->
     lastSubmissionTime_at st (msg_sender env) + cooldownSeconds st <= uint256_max ->
     lastSubmissionTime_at st (msg_sender env) + cooldownSeconds st <= block_timestamp env ->
     (forall t r, run (submitEncryptedResources env t r) (storage w)
                  = (Reverted BatchNotOpen, mkWorld (storage w) [])) /\
     (forall p, run (requestDecryptionForPlayer env p) (storage w)
                = (Reverted BatchNotOpen, mkWorld (storage w) []))).
Proof.
  intros Hrun.
  assert (Hw : w = mkWorld (apply_write (W_batchOpen (currentBatchId st) false) st)
                     [SWrite (W_batchOpen (currentBatchId st) false);
                      SEmit (BatchClosed (currentBatchId st))]).
  { revert Hrun. unfold_contract. split_tests; intros H; try discriminate.
    inversion H; reflexivity. }
  subst w.
  set (st' := apply_write (W_batchOpen (currentBatchId st) false) st).
  assert (Hclosed : batchOpen_at st' (currentBatchId st') = false).
  { unfold batchOpen_at, st'. simpl. rewrite lookup_insert_eq. reflexivity. }
  split; [exact Hclosed |]. split; [reflexivity |]. split.
  - intros env Hown. now apply close_when_closed.
  - intros env Hprov Hpa Hfit Hafter. split; intros.
    + now apply submit_when_closed.
    + now apply request_when_closed.
Qed.

Lemma closed_batch_accepts_nothing_witness :
  run (submitEncryptedResources (P := Demo.platform) (Demo.at_time Demo.bob 2600 0) 333 444)
      Demo.st_batch_closed
    = (Reverted BatchNotOpen, mkWorld Demo.st_batch_closed []).
Proof.
  destruct (closed_batch_accepts_nothing (P := Demo.platform)
              (Demo.at_time Demo.alice 2500 0) Demo.st_submitted
              (snd (run (closeCurrentBatch (Demo.at_time Demo.alice 2500 0))
                        Demo.st_submitted)) ltac:(vm_compute; reflexivity))
    as (_ & _ & _ & Hblock).
  apply (Hblock (Demo.at_time Demo.bob 2600 0) eq_refl eq_refl
           ltac:(vm_compute; discriminate) ltac:(vm_compute; discriminate)).
Defined.

(** A successful submission starts the sender's window for both provider
    operations: until [cooldownSeconds] after the submission time, a further
    submission and a decryption request by the same sender both revert with
    [CooldownActive] (the sender still being on the allow-list and the
    contract not paused). *)
Theorem submission_starts_cooldown {P : Platform} (env env' : Env) (st : Storage)
    (t r : Z) (w : World) :
  run (submitEncryptedResources env t r) st = (Done tt, w) ->
  msg_sender env' = msg_sender env ->
  block_timestamp env + cooldownSeconds st <= uint256_max ->
  block_timestamp env' < block_timestamp env + cooldownSeconds st ->
  (forall t' r', run (submitEncryptedResources env' t' r') (storage w)
                 = (Reverted CooldownActive, mkWorld (storage w) [])) /\
  (forall p, run (requestDecryptionForPlayer env' p) (storage w)
             = (Reverted CooldownActive, mkWorld (storage w) [])).
Proof.
  intros Hrun Hsame Hfit Hbefore.
  apply submit_done_inv in Hrun.
  destruct Hrun as ((Hprov & Hpa & _) & ->).
  assert (Hlast : lastSubmissionTime_at
                    (apply_write (W_lastSubmissionTime (msg_sender env) (block_timestamp env))
                       (apply_write (W_playerData (currentBatchId st) (msg_sender env)
                                       (mkPlayerData t r)) st)) (msg_sender env')
                  = block_timestamp env).
  { unfold lastSubmissionTime_at. simpl. rewrite Hsame, lookup_insert_eq. reflexivity. }
  split; intros.
  - unfold submitEncryptedResources.
    rewrite onlyProvider_pass, whenNotPaused_pass; try assumption.
    + apply checkCooldown_block; rewrite Hlast; assumption.
    + rewrite Hsame. assumption.
  - unfold requestDecryptionForPlayer.
    rewrite onlyProvider_pass, whenNotPaused_pass; try assumption.
    + apply checkCooldown_block; rewrite Hlast; assumption.
    + rewrite Hsame. assumption.
Qed.

Lemma submission_starts_cooldown_witness :
  run (requestDecryptionForPlayer (P := Demo.platform) (Demo.at_time Demo.bob 2029 5)
         Demo.bob) Demo.st_submitted
    = (Reverted CooldownActive, mkWorld Demo.st_submitted []).
Proof.
  apply (proj2 (submission_starts_cooldown (P := Demo.platform)
                  (Demo.at_time Demo.bob 2000 0) (Demo.at_time Demo.bob 2029 5)
                  Demo.st_ready 111 222
                  (snd (run (submitEncryptedResources (P := Demo.platform)
                               (Demo.at_time Demo.bob 2000 0) 111 222) Demo.st_ready))
                  ltac:(vm_compute; reflexivity) eq_refl
                  ltac:(vm_compute; discriminate) ltac:(vm_compute; reflexivity))).
Defined.

(** ** More on the callback *)

(** The callback, flattened into its outcome. *)
Lemma callback_run {P : Platform} env st requestId cleartexts proof :
  run (myCallback env requestId cleartexts proof) st
  = callback_outcome env st requestId cleartexts proof.
Proof.
  unfold callback_outcome, decoded. unfold_contract.
  destruct (processed (decryptionContexts_at st requestId)); simpl; [reflexivity |].
  destruct (negb _); simpl; [reflexivity |].
  destruct (oracle_signaturesValid env); simpl; [| reflexivity].
  destruct (bytes_slice cleartexts 0 32) as [w0|]; simpl; [| reflexivity].
  destruct (abi_decode_uint32 w0); simpl; [| reflexivity].
  destruct (bytes_slice cleartexts 32 64) as [w1|]; simpl; [| reflexivity].
  destruct (abi_decode_uint32 w1); simpl; [| reflexivity].
  unfold decryptionContexts_at. simpl. rewrite lookup_insert_eq. reflexivity.
Qed.

(** The outcome of the callback is decided by the context stored under the
    request id and by the caller's entry in the batch named by that context,
    and by nothing else in the storage: in particular it is the same after
    the batch has been closed, a new batch opened or the contract paused. *)
Theorem callback_reads_context_and_entry_only {P : Platform} (env : Env)
    (st1 st2 : Storage) (requestId : Z) (cleartexts proof : bytes) :
  decryptionContexts_at st1 requestId = decryptionContexts_at st2 requestId ->
  playerData_at st1 (batchId (decryptionContexts_at st1 requestId)) (msg_sender env)
  = playerData_at st2 (batchId (decryptionContexts_at st1 requestId)) (msg_sender env) ->
  fst (run (myCallback env requestId cleartexts proof) st1)
  = fst (run (myCallback env requestId cleartexts proof) st2).
Proof.
  intros Hctx Hdata. rewrite !callback_run. unfold callback_outcome.
  rewrite <- Hctx, <- Hdata.
  split_tests; reflexivity.
Qed.

Lemma callback_reads_context_and_entry_only_witness :
  fst (run (myCallback (P := Demo.platform) (Demo.at_time Demo.bob 3100 0) 5
              Demo.cleartexts_7_3 [])
           (transact_all (P := Demo.platform)
              [(Demo.at_time Demo.alice 3010 0, Call_closeCurrentBatch);
               (Demo.at_time Demo.alice 3020 0, Call_openNewBatch);
               (Demo.at_time Demo.alice 3030 0, Call_pause)]
              Demo.st_requested))
  = Done tt.
Proof.
  rewrite <- (callback_reads_context_and_entry_only (P := Demo.platform)
                (Demo.at_time Demo.bob 3100 0) Demo.st_requested
                (transact_all (P := Demo.platform)
                   [(Demo.at_time Demo.alice 3010 0, Call_closeCurrentBatch);
                    (Demo.at_time Demo.alice 3020 0, Call_openNewBatch);
                    (Demo.at_time Demo.alice 3030 0, Call_pause)]
                   Demo.st_requested)
                5 Demo.cleartexts_7_3 []
                ltac:(vm_compute; reflexivity) ltac:(vm_compute; reflexivity)).
  vm_compute. reflexivity.
Defined.

(** The callback compares the stored hash with the hash of the handles of
    its own caller, not of the player the request was made for.  After a
    successful request for player [p], a callback whose caller's handles in
    that batch hash differently from [p]'s reverts with [StateMismatch];
    a callback whose caller holds the same handles as [p] (so when [p] calls
    back itself), with an accepted proof and two decodable words, succeeds
    and emits the decoded values. *)
Theorem callback_checks_the_callers_entry {P : Platform} (env env' : Env) (st : Storage)
    (p : address) (w : World) (requestId : Z) (cleartexts proof : bytes) :
  run (requestDecryptionForPlayer env p) st = (Done tt, w) ->
  oracle_requestId env = Some requestId ->
  let mine := playerData_at st (currentBatchId st) (msg_sender env') in
  let theirs := playerData_at st (currentBatchId st) p in
  (_hashCiphertexts [encryptedTotalResources mine; encryptedCollectionRate mine]
   <> _hashCiphertexts [encryptedTotalResources theirs; encryptedCollectionRate theirs] ->
     run (myCallback env' requestId cleartexts proof) (storage w)
     = (Reverted StateMismatch, mkWorld (storage w) [])) /\
  (mine = theirs ->
   oracle_signaturesValid env' = true ->
   forall a b,
     decoded cleartexts 0 32 = Some a ->
     decoded cleartexts 32 64 = Some b ->
     exists w',
       run (myCallback env' requestId cleartexts proof) (storage w) = (Done tt, w') /\
       processed (decryptionContexts_at (storage w') requestId) = true /\
       trace w' = [SLib (Lib_checkSignatures requestId cleartexts proof);
                   SWrite (W_processed requestId true);
                   SEmit (DecryptionCompleted requestId (currentBatchId st) a b)]).
Proof.
  intros Hrun Hrid mine theirs.
  apply request_done_inv in Hrun. destruct Hrun as (_ & rid & Hrid' & ->).
  assert (rid = requestId) by congruence. subst rid. clear Hrid'.
  assert (Hctx : decryptionContexts_at (storage (request_world env st p requestId)) requestId
                 = mkContext (currentBatchId st)
                     (_hashCiphertexts [encryptedTotalResources theirs;
                                        encryptedCollectionRate theirs]) false).
  { unfold decryptionContexts_at, request_world. simpl. rewrite lookup_insert_eq.
    reflexivity. }
  assert (Hmine : playerData_at (storage (request_world env st p requestId))
                    (currentBatchId st) (msg_sender env') = mine) by reflexivity.
  split.
  - intros Hdiff. rewrite callback_run. unfold callback_outcome.
    rewrite Hctx. cbn [batchId stateHash processed]. rewrite Hmine.
    apply Z.eqb_neq in Hdiff. rewrite Hdiff. reflexivity.
  - intros Hsame Hvalid a b Ha Hb. rewrite callback_run. unfold callback_outcome.
    rewrite Hctx. cbn [batchId stateHash processed].
    rewrite Hmine, Hsame, Z.eqb_refl, Hvalid, Ha, Hb. simpl.
    eexists. split; [reflexivity |]. simpl. split; [| reflexivity].
    unfold decryptionContexts_at. simpl. rewrite lookup_insert_eq. reflexivity.
Qed.

Lemma callback_checks_the_callers_entry_witness :
  run (myCallback (P := Demo.platform) (Demo.at_time Demo.carol 3100 0) 5
         Demo.cleartexts_7_3 []) Demo.st_requested
    = (Reverted StateMismatch, mkWorld Demo.st_requested []) /\
  exists w',
    run (myCallback (P := Demo.platform) (Demo.at_time Demo.bob 3100 0) 5
           Demo.cleartexts_7_3 []) Demo.st_requested = (Done tt, w') /\
    processed (decryptionContexts_at (storage w') 5) = true /\
    trace w' = [SLib (Lib_checkSignatures 5 Demo.cleartexts_7_3 []);
                SWrite (W_processed 5 true);
                SEmit (DecryptionCompleted 5 1 7 3)].
Proof.
  split.
  - apply (proj1 (callback_checks_the_callers_entry (P := Demo.platform)
                    (Demo.at_time Demo.bob 3000 5) (Demo.at_time Demo.carol 3100 0)
                    Demo.st_submitted Demo.bob
                    (snd (run (requestDecryptionForPlayer (P := Demo.platform)
                                 (Demo.at_time Demo.bob 3000 5) Demo.bob)
                              Demo.st_submitted))
                    5 Demo.cleartexts_7_3 []
                    ltac:(vm_compute; reflexivity) eq_refl)).
    vm_compute. discriminate.
  - apply (proj2 (callback_checks_the_callers_entry (P := Demo.platform)
                    (Demo.at_time Demo.bob 3000 5) (Demo.at_time Demo.bob 3100 0)
                    Demo.st_submitted Demo.bob
                    (snd (run (requestDecryptionForPlayer (P := Demo.platform)
                                 (Demo.at_time Demo.bob 3000 5) Demo.bob)
                              Demo.st_submitted))
                    5 Demo.cleartexts_7_3 []
                    ltac:(vm_compute; reflexivity) eq_refl)
             eq_refl eq_refl 7 3 ltac:(vm_compute; reflexivity)
             ltac:(vm_compute; reflexivity)).
Defined.

(** The state hash does its job against a changed entry: when the caller
    of the callback has submitted new handles (in the same batch) between
    the request and the callback, and the new pair hashes differently from
    the pair the request recorded, the callback reverts with [StateMismatch]
    and the context stays unprocessed. *)
Theorem resubmission_invalidates_request {P : Platform} (env1 env2 env3 : Env)
    (st : Storage) (p : address) (w1 w2 : World) (requestId t' r' : Z)
    (cleartexts proof : bytes) :
  run (requestDecryptionForPlayer env1 p) st = (Done tt, w1) ->
  oracle_requestId env1 = Some requestId ->
  run (submitEncryptedResources env2 t' r') (storage w1) = (Done tt, w2) ->
  msg_sender env3 = msg_sender env2 ->
  _hashCiphertexts [t'; r']
  <> _hashCiphertexts
       [encryptedTotalResources (playerData_at st (currentBatchId st) p);
        encryptedCollectionRate (playerData_at st (currentBatchId st) p)] ->
  run (myCallback env3 requestId cleartexts proof) (storage w2)
    = (Reverted StateMismatch, mkWorld (storage w2) []) /\
  processed (decryptionContexts_at (storage w2) requestId) = false.
Proof.
  intros Hreq Hrid Hsub Hsame Hdiff.
  apply request_done_inv in Hreq. destruct Hreq as (_ & rid & Hrid' & ->).
  assert (rid = requestId) by congruence. subst rid. clear Hrid'.
  apply submit_done_inv in Hsub. destruct Hsub as (_ & Hst2).
  assert (Hctx : decryptionContexts_at (storage w2) requestId
                 = mkContext (currentBatchId st)
                     (_hashCiphertexts
                        [encryptedTotalResources (playerData_at st (currentBatchId st) p);
                         encryptedCollectionRate (playerData_at st (currentBatchId st) p)])
                     false).
  { rewrite Hst2. unfold decryptionContexts_at, request_world. simpl.
    rewrite lookup_insert_eq. reflexivity. }
  assert (Hmine : playerData_at (storage w2) (currentBatchId st) (msg_sender env3)
                  = mkPlayerData t' r').
  { rewrite Hst2, Hsame. unfold playerData_at, request_world. simpl.
    rewrite lookup_insert_eq. reflexivity. }
  split.
  - rewrite callback_run. unfold callback_outcome.
    rewrite Hctx. cbn [batchId stateHash processed]. rewrite Hmine.
    cbn [encryptedTotalResources encryptedCollectionRate].
    apply Z.eqb_neq in Hdiff. rewrite Hdiff. reflexivity.
  - rewrite Hctx. reflexivity.
Qed.

Lemma resubmission_invalidates_request_witness :
  fst (run (myCallback (P := Demo.platform) (Demo.at_time Demo.bob 3100 0) 5
              Demo.cleartexts_7_3 [])
           (transact (P := Demo.platform) (Demo.at_time Demo.bob 3050 0)
              (Call_submitEncryptedResources 333 444) Demo.st_requested))
  = Reverted StateMismatch.
Proof.
  pose proof (resubmission_invalidates_request (P := Demo.platform)
                (Demo.at_time Demo.bob 3000 5) (Demo.at_time Demo.bob 3050 0)
                (Demo.at_time Demo.bob 3100 0) Demo.st_submitted Demo.bob
                (snd (run (requestDecryptionForPlayer (P := Demo.platform)
                             (Demo.at_time Demo.bob 3000 5) Demo.bob) Demo.st_submitted))
                (snd (run (submitEncryptedResources (P := Demo.platform)
                             (Demo.at_time Demo.bob 3050 0) 333 444) Demo.st_requested))
                5 333 444 Demo.cleartexts_7_3 []
                ltac:(vm_compute; reflexivity) eq_refl ltac:(vm_compute; reflexivity)
                eq_refl ltac:(vm_compute; discriminate)) as [Hrun _].
  exact (f_equal fst Hrun).
Defined.

(** A callback for a request id under which nothing was ever stored cannot
    go through: the empty context names batch 0 and hash 0, batch 0 holds no
    entries, and the hash of two zero handles is compared with 0.  Provided
    that hash is not 0, the callback reverts with [StateMismatch]. *)
Theorem callback_for_unknown_request {P : Platform} (env : Env) (st : Storage)
    (requestId : Z) (cleartexts proof : bytes) :
  reachable st ->
  decryptionContexts st !! requestId = None ->
  keccak256 [64; this; 2; 0; 0] <> 0 ->
  run (myCallback env requestId cleartexts proof) st
  = (Reverted StateMismatch, mkWorld st []).
Proof.
  intros Hreach Hnone Hhash.
  assert (Hentry : playerData_at st 0 (msg_sender env) = mkPlayerData 0 0).
  { unfold playerData_at.
    destruct (playerData st !! (0, msg_sender env)) as [d|] eqn:Hd; [| reflexivity].
    destruct (reachable_invariant st Hreach) as (_ & _ & Hdata).
    apply Hdata in Hd. lia. }
  rewrite callback_run. unfold callback_outcome, decryptionContexts_at.
  rewrite Hnone. cbn [default batchId stateHash processed]. rewrite Hentry.
  cbn [encryptedTotalResources encryptedCollectionRate].
  unfold _hashCiphertexts, abi_encode_bytes32s_address, toBytes32. simpl.
  change (Z.of_nat 2) with 2.
  apply Z.eqb_neq in Hhash. rewrite Hhash. reflexivity.
Qed.

Lemma callback_for_unknown_request_witness :
  run (myCallback (P := Demo.platform) (Demo.at_time Demo.bob 3100 0) 77
         Demo.cleartexts_7_3 []) Demo.st_requested
  = (Reverted StateMismatch, mkWorld Demo.st_requested []).
Proof.
  apply (callback_for_unknown_request (P := Demo.platform)).
  - unfold Demo.st_requested, Demo.st_submitted, Demo.st_ready.
    simpl. repeat apply reachable_transact. apply reachable_deploy.
  - vm_compute. reflexivity.
  - vm_compute. discriminate.
Defined.

(** ** Decoding the cleartexts *)

Lemma be_to_Z_nonneg (bs : bytes) : 0 <= be_to_Z bs.
Proof.
  unfold be_to_Z.
  assert (H : forall acc, 0 <= acc ->
                0 <= fold_left (fun acc b => acc * 256 + Z.of_N (Byte.to_N b)) bs acc).
  { induction bs as [| b bs IH]; intros acc Hacc; simpl; [assumption |].
    apply IH. pose proof (N2Z.is_nonneg (Byte.to_N b)). lia. }
  apply H. lia.
Qed.

(** A decoded 32-byte word is the big-endian value of bytes [a, a + 32),
    which must exist and fit 32 bits. *)
Lemma decoded_word (cleartexts : bytes) (a : nat) (v : Z) :
  decoded cleartexts a (a + 32) = Some v ->
  (a + 32 <= length cleartexts)%nat /\
  v = be_to_Z (firstn 32 (skipn a cleartexts)) /\
  0 <= v <= uint32_max.
Proof.
  unfold decoded, bytes_slice, abi_decode_uint32.
  destruct (a <=? a + 32)%nat eqn:H1; simpl; [| discriminate].
  destruct (a + 32 <=? length cleartexts)%nat eqn:H2; simpl; [| discriminate].
  apply Nat.leb_le in H2.
  replace (a + 32 - a)%nat with 32%nat by lia.
  destruct (_ <? 32)%nat; [discriminate |].
  rewrite firstn_firstn. change (Init.Nat.min 32 32) with 32%nat.
  destruct (Z.leb_spec (be_to_Z (firstn 32 (skipn a cleartexts))) uint32_max);
    [| discriminate].
  intros Hv. inversion Hv; subst v.
  pose proof (be_to_Z_nonneg (firstn 32 (skipn a cleartexts))).
  repeat split; try assumption; lia.
Qed.

(** What a successful callback has decoded: the cleartexts are at least 64
    bytes long, the two values of the [DecryptionCompleted] event are the
    big-endian values of bytes 0..32 and 32..64, each at most 2^32 - 1;
    bytes from 64 on are ignored.  A callback with fewer than 64 bytes of
    cleartexts, or with a word above 32 bits, therefore never succeeds. *)
Theorem callback_decodes_two_uint32 {P : Platform} (env : Env) (st : Storage)
    (requestId : Z) (cleartexts proof : bytes) (w : World) :
  run (myCallback env requestId cleartexts proof) st = (Done tt, w) ->
  let a := be_to_Z (firstn 32 cleartexts) in
  let b := be_to_Z (firstn 32 (skipn 32 cleartexts)) in
  (64 <= length cleartexts)%nat /\
  0 <= a <= uint32_max /\
  0 <= b <= uint32_max /\
  trace w = [SLib (Lib_checkSignatures requestId cleartexts proof);
             SWrite (W_processed requestId true);
             SEmit (DecryptionCompleted requestId
                      (batchId (decryptionContexts_at st requestId)) a b)].
Proof.
  rewrite callback_run. unfold callback_outcome.
  destruct (processed _); [discriminate |].
  destruct (negb (_ =? _)); [discriminate |].
  destruct (negb (oracle_signaturesValid env)); [discriminate |].
  destruct (decoded cleartexts 0 32) as [a|] eqn:Ha; [| discriminate].
  destruct (decoded cleartexts 32 64) as [b|] eqn:Hb; [| discriminate].
  intros H. inversion H; subst w; clear H. simpl.
  apply (decoded_word cleartexts 0) in Ha. apply (decoded_word cleartexts 32) in Hb.
  simpl in Ha, Hb.
  destruct Ha as (_ & -> & Ha), Hb as (Hlen & -> & Hb).
  change (skipn 0 cleartexts) with cleartexts in Ha.
  repeat split; try reflexivity; try assumption; lia.
Qed.

Lemma callback_decodes_two_uint32_witness :
  (64 <= length Demo.cleartexts_7_3)%nat /\
  be_to_Z (firstn 32 Demo.cleartexts_7_3) = 7 /\
  be_to_Z (firstn 32 (skipn 32 Demo.cleartexts_7_3)) = 3.
Proof.
  destruct (callback_decodes_two_uint32 (P := Demo.platform)
              (Demo.at_time Demo.bob 3100 0) Demo.st_requested 5 Demo.cleartexts_7_3 []
              (snd (run (myCallback (P := Demo.platform) (Demo.at_time Demo.bob 3100 0) 5
                           Demo.cleartexts_7_3 []) Demo.st_requested))
              ltac:(vm_compute; reflexivity)) as (Hlen & _ & _ & _).
  split; [exact Hlen |]. split; vm_compute; reflexivity.
Defined.

(** ** Changing the cooldown *)

(** [setCooldownSeconds] by the owner always succeeds, paused or not, for
    any value: it emits the old and the new length and stores the new one.
    The new length governs at once the windows that are already running,
    because the guard adds the current length to the recorded submission
    time: a sender is blocked exactly until that time plus the new length. *)
Theorem cooldown_change_applies_at_once {P : Platform} (env : Env) (st : Storage)
    (_cooldownSeconds : Z) :
  msg_sender env = owner st ->
  let st' := transact env (Call_setCooldownSeconds _cooldownSeconds) st in
  run (setCooldownSeconds env _cooldownSeconds) st
    = (Done tt, mkWorld st' [SEmit (CooldownSecondsSet (cooldownSeconds st) _cooldownSeconds);
                             SWrite (W_cooldownSeconds _cooldownSeconds)]) /\
  cooldownSeconds st' = _cooldownSeconds /\
  (forall env2,
     isProvider_at st (msg_sender env2) = true ->
     paused st = false ->
     lastSubmissionTime_at st (msg_sender env2) + _cooldownSeconds <= uint256_max ->
     (block_timestamp env2 < lastSubmissionTime_at st (msg_sender env2) + _cooldownSeconds ->
        forall t r, run (submitEncryptedResources env2 t r) st'
                    = (Reverted CooldownActive, mkWorld st' [])) /\
     (lastSubmissionTime_at st (msg_sender env2) + _cooldownSeconds <= block_timestamp env2 ->
        forall A (body : M A),
          run (onlyProvider env2 (whenNotPaused (checkCooldown env2 (msg_sender env2) body)))
              st'
          = run body st')).
Proof.
  intros Hown st'. apply Z.eqb_eq in Hown.
  assert (Hst' : st' = apply_write (W_cooldownSeconds _cooldownSeconds) st).
  { unfold st', transact. unfold_contract. rewrite Hown. reflexivity. }
  split; [| split].
  - rewrite Hst'. unfold_contract. rewrite Hown. reflexivity.
  - rewrite Hst'. reflexivity.
  - rewrite Hst'. intros env2 Hprov Hpa Hfit. split.
    + intros Hbefore t r. unfold submitEncryptedResources.
      rewrite onlyProvider_pass, whenNotPaused_pass by assumption.
      now apply checkCooldown_block.
    + intros Hafter A body.
      rewrite onlyProvider_pass, whenNotPaused_pass by assumption.
      now apply checkCooldown_pass.
Qed.

Lemma cooldown_change_applies_at_once_witness :
  run (submitEncryptedResources (P := Demo.platform) (Demo.at_time Demo.bob 2050 0) 333 444)
      (transact (P := Demo.platform) (Demo.at_time Demo.alice 2040 0)
         (Call_setCooldownSeconds 100) Demo.st_submitted)
  = (Reverted CooldownActive,
     mkWorld (transact (P := Demo.platform) (Demo.at_time Demo.alice 2040 0)
                (Call_setCooldownSeconds 100) Demo.st_submitted) []).
Proof.
  destruct (cooldown_change_applies_at_once (P := Demo.platform)
              (Demo.at_time Demo.alice 2040 0) Demo.st_submitted 100 eq_refl)
    as (_ & _ & Hwin).
  apply (proj1 (Hwin (Demo.at_time Demo.bob 2050 0) eq_refl eq_refl
                  ltac:(vm_compute; discriminate))).
  vm_compute. reflexivity.
Defined.

(** ** The front end *)

Example frontend_sanity :
  Frontend.FHEEncryptNumber (R := Frontend.Js.runtime) 42%N = Some "FHE-NDI="%string /\
  Frontend.FHEEncryptNumber (R := Frontend.Js.runtime) 1234567%N
    = Some "FHE-MTIzNDU2Nw=="%string /\
  Frontend.FHEDecryptNumber (R := Frontend.Js.runtime) "FHE-MTIzNDU2Nw=="%string
    = Some 1234567%N /\
  Frontend.FHEDecryptNumber (R := Frontend.Js.runtime) "17"%string = Some 17%N.
Proof. vm_compute. repeat split; reflexivity. Qed.

Lemma substring_whole (s : String.string) : String.substring 0 (String.length s) s = s.
Proof. induction s as [| c s IH]; simpl; [reflexivity | now rewrite IH]. Qed.

(** Decrypting what was encrypted gives the number back.  When [btoa]
    accepts the printed number, [FHEEncryptNumber] returns the prefix
    "FHE-" followed by the encoding; [FHEDecryptNumber] then recognises the
    prefix, cuts off exactly those four characters, and returns the
    original number, provided [atob] inverts [btoa] on that encoding and
    [parseFloat] reads back what [toString] printed. *)
Theorem decrypt_after_encrypt {R : Frontend.JsRuntime} (value : Frontend.number)
    (b : String.string) :
  Frontend.btoa (Frontend.toString value) = Some b ->
  Frontend.atob b = Some (Frontend.toString value) ->
  Frontend.parseFloat (Frontend.toString value) = value ->
  Frontend.FHEEncryptNumber value = Some (String.append "FHE-"%string b) /\
  Frontend.FHEDecryptNumber (String.append "FHE-"%string b) = Some value.
Proof.
  intros Hbtoa Hatob Hparse.
  unfold Frontend.FHEEncryptNumber, Frontend.FHEDecryptNumber. rewrite Hbtoa.
  split; [reflexivity |].
  assert (Hprefix : Frontend.startsWith (String.append "FHE-"%string b) "FHE-"%string = true).
  { unfold Frontend.startsWith. simpl.
    repeat (destruct (Ascii.ascii_dec _ _); [| congruence]).
    destruct b; reflexivity. }
  assert (Hrest : Frontend.substring_from 4 (String.append "FHE-"%string b) = b).
  { unfold Frontend.substring_from. simpl. rewrite Nat.sub_0_r. apply substring_whole. }
  rewrite Hprefix, Hrest, Hatob, Hparse. reflexivity.
Qed.

Lemma decrypt_after_encrypt_witness :
  Frontend.FHEEncryptNumber (R := Frontend.Js.runtime) 1234567%N
    = Some "FHE-MTIzNDU2Nw=="%string /\
  Frontend.FHEDecryptNumber (R := Frontend.Js.runtime) "FHE-MTIzNDU2Nw=="%string
    = Some 1234567%N.
Proof.
  apply (decrypt_after_encrypt (R := Frontend.Js.runtime) 1234567%N
           "MTIzNDU2Nw=="%string);
    vm_compute; reflexivity.
Defined.

(** The four totals of the dashboard count every record at most once:
    their sum never exceeds the number of loaded records, and equals it
    when every record carries one of the four resource types (a record of
    any other type is counted in no total). *)
Theorem totals_count_each_record_once {R : Frontend.JsRuntime}
    (resources : list Frontend.ResourceRecord) :
  (Frontend.totalMinerals resources + Frontend.totalGas resources
   + Frontend.totalEnergy resources + Frontend.totalCredits resources
   <= length resources)%nat /\
  (Forall (fun r => In (Frontend.resourceType r) Frontend.RESOURCE_TYPES) resources ->
   (Frontend.totalMinerals resources + Frontend.totalGas resources
    + Frontend.totalEnergy resources + Frontend.totalCredits resources
    = length resources)%nat).
Proof.
  unfold Frontend.totalMinerals, Frontend.totalGas, Frontend.totalEnergy,
    Frontend.totalCredits, Frontend.total_of.
  split.
  - induction resources as [| r rs IH]; simpl; [lia |].
    destruct (String.eqb_spec (Frontend.resourceType r) "minerals"%string) as [-> |];
      simpl; [lia |].
    destruct (String.eqb_spec (Frontend.resourceType r) "gas"%string) as [-> |];
      simpl; [lia |].
    destruct (String.eqb_spec (Frontend.resourceType r) "energy"%string) as [-> |];
      simpl; [lia |].
    destruct (String.eqb_spec (Frontend.resourceType r) "credits"%string); simpl; lia.
  - induction 1 as [| r rs Hr Hrs IH]; simpl; [reflexivity |].
    simpl in Hr.
    destruct Hr as [<- | [<- | [<- | [<- | []]]]]; simpl; lia.
Qed.

Lemma totals_count_each_record_once_witness :
  (Frontend.totalMinerals (firstn 4 Frontend.Js.sample)
   + Frontend.totalGas (firstn 4 Frontend.Js.sample)
   + Frontend.totalEnergy (firstn 4 Frontend.Js.sample)
   + Frontend.totalCredits (firstn 4 Frontend.Js.sample) = 4)%nat.
Proof.
  apply (proj2 (totals_count_each_record_once (R := Frontend.Js.runtime)
                  (firstn 4 Frontend.Js.sample))).
  cbv [firstn Frontend.Js.sample].
  repeat (constructor; [simpl; auto 6 |]). constructor.
Defined.

Lemma includes_empty (s : String.string) : Frontend.includes s ""%string = true.
Proof. destruct s; reflexivity. Qed.

Lemma filter_keeps_all {A} (f : A -> bool) (l : list A) :
  (forall x, f x = true) -> List.filter f l = l.
Proof.
  intros Hf. induction l as [| x l IH]; simpl; [reflexivity |].
  now rewrite Hf, IH.
Qed.

(** The list shown.  With the empty search term and the filter "all" (the
    state the page starts in) every loaded record is shown, in the loaded
    order; with any other filter value every record shown has exactly that
    resource type. *)
Theorem filteredResources_shows {R : Frontend.JsRuntime}
    (resources : list Frontend.ResourceRecord) :
  (Frontend.toLowerCase ""%string = ""%string ->
   Frontend.filteredResources resources ""%string "all"%string = resources) /\
  (forall searchTerm filterType,
     filterType <> "all"%string ->
     Forall (fun r => Frontend.resourceType r = filterType)
            (Frontend.filteredResources resources searchTerm filterType)).
Proof.
  unfold Frontend.filteredResources. split.
  - intros Hlower. rewrite Hlower.
    apply filter_keeps_all. intros r.
    rewrite includes_empty. reflexivity.
  - intros searchTerm filterType Hne.
    apply List.Forall_forall. intros r Hin.
    apply filter_In in Hin. destruct Hin as [_ Hr].
    apply andb_true_iff in Hr. destruct Hr as [_ Hr].
    apply orb_true_iff in Hr. destruct Hr as [Hr | Hr].
    + apply String.eqb_eq in Hr. contradiction.
    + now apply String.eqb_eq in Hr.
Qed.

Lemma filteredResources_shows_witness :
  Frontend.filteredResources (R := Frontend.Js.runtime) Frontend.Js.sample
    ""%string "all"%string = Frontend.Js.sample.
Proof.
  apply (proj1 (filteredResources_shows (R := Frontend.Js.runtime) Frontend.Js.sample)).
  reflexivity.
Defined.

(** ** Who changes what *)

(** Player entries and submission times are changed by
    [submitEncryptedResources] only: every other function, the owner's
    functions and the callback included, leaves both maps exactly as they
    are. *)
Theorem entries_change_only_by_submission {P : Platform} (env : Env) (c : Call)
    (st : Storage) :
  (forall t r, c <> Call_submitEncryptedResources t r) ->
  playerData (transact env c st) = playerData st /\
  lastSubmissionTime (transact env c st) = lastSubmissionTime st.
Proof.
  intros Hc.
  destruct c; try (exfalso; eapply Hc; reflexivity);
    unfold transact; unfold_contract; split_tests; split; reflexivity.
Qed.

Lemma entries_change_only_by_submission_witness :
  playerData Demo.st_completed = playerData Demo.st_requested.
Proof.
  apply (entries_change_only_by_submission (P := Demo.platform)
           (Demo.at_time Demo.bob 3100 0) (Call_myCallback 5 Demo.cleartexts_7_3 [])
           Demo.st_requested).
  intros t r. discriminate.
Defined.

(** A decryption context is written once.  Unless a decryption request is
    handed the same request id by the library, no transaction changes the
    batch id or the state hash stored under a request id, and a processed
    flag that is set stays set: the only change left is the callback
    setting the flag. *)
Theorem context_is_written_once {P : Platform} (env : Env) (c : Call) (st : Storage)
    (requestId : Z) :
  ~ hands_out requestId (env, c) ->
  batchId (decryptionContexts_at (transact env c st) requestId)
    = batchId (decryptionContexts_at st requestId) /\
  stateHash (decryptionContexts_at (transact env c st) requestId)
    = stateHash (decryptionContexts_at st requestId) /\
  (processed (decryptionContexts_at st requestId) = true ->
   processed (decryptionContexts_at (transact env c st) requestId) = true).
Proof.
  intros Hfresh. unfold hands_out in Hfresh. simpl in Hfresh.
  destruct c; unfold transact; unfold_contract.
  1-8: split_tests; repeat split; intros; try reflexivity; assumption.
  - split_tests; repeat split; intros; try reflexivity; try assumption;
      unfold decryptionContexts_at in *; simpl;
      rewrite lookup_insert_ne by congruence; try reflexivity; assumption.
  - split_tests; repeat split; intros; try reflexivity; try assumption;
      unfold decryptionContexts_at in *; simpl; rewrite lookup_insert;
      case_decide; subst; simpl; try reflexivity; assumption.
Qed.

Lemma context_is_written_once_witness :
  batchId (decryptionContexts_at Demo.st_completed 5) = 1 /\
  stateHash (decryptionContexts_at Demo.st_completed 5)
    = stateHash (decryptionContexts_at Demo.st_requested 5).
Proof.
  destruct (context_is_written_once (P := Demo.platform) (Demo.at_time Demo.bob 3100 0)
              (Call_myCallback 5 Demo.cleartexts_7_3 []) Demo.st_requested 5
              ltac:(unfold hands_out; simpl; tauto)) as (Hb & Hh & _).
  split; [exact (eq_trans Hb eq_refl) | exact Hh].
Defined.
